(** * MiddleGround feed controller: aggregation, ranking and like mutation

    A shallow embedding of [controllers/feedController.js] together with the
    MySQL schema and stored procedures it runs against.

    Conventions of the embedding
    - SQL tables are lists of row records in storage order; an [INT] or a
      [TIMESTAMP] is a [Z], a [VARCHAR]/[TEXT] a [string], an [ENUM] an
      inductive type, a nullable column an [option].
    - A JavaScript object with string keys is an insertion-ordered
      association list; reading a missing key gives [undefined], and a
      number that may be [undefined]/[NaN] is an [option Z].
    - Every [await db.query(...)] is a computation in the [Db] monad: it
      appends the statement to the log of statements sent to the server,
      may change the tables, and either resolves or rejects.  A handler's
      outer [try/catch] turns a rejection into the 500 response. *)

From Stdlib Require Import ZArith List String Ascii Bool Lia Permutation.
From Stdlib Require Import Sorting.Sorted.
Import ListNotations.

Open Scope string_scope.
Open Scope list_scope.
Open Scope Z_scope.

(* ================================================================== *)
(** ** Schema *)

(** [ENUM('FL', 'L', 'SL', 'M', 'SR', 'R', 'FR')] *)
Inductive PolLean : Type := FL | L | SL | M | SR | R | FR.

(** [ENUM('POST', 'COMMENT')] *)
Inductive EntityType : Type := POST | COMMENT.

Definition polLean_str (p : PolLean) : string :=
  match p with
  | FL => "FL" | L => "L" | SL => "SL" | M => "M"
  | SR => "SR" | R => "R" | FR => "FR"
  end.

Definition entityType_str (t : EntityType) : string :=
  match t with POST => "POST" | COMMENT => "COMMENT" end.

Definition polLean_eqb (p q : PolLean) : bool :=
  match p, q with
  | FL, FL | L, L | SL, SL | M, M | SR, SR | R, R | FR, FR => true
  | _, _ => false
  end.

(** The members of the leaning [ENUM], in index order. *)
Definition all_polLean : list PolLean := [FL; L; SL; M; SR; R; FR].

(** Table [Users]. *)
Record User : Type := mkUser {
  u_username   : string;
  u_firstName  : string;
  u_lastName   : string;
  u_email      : string;
  u_passHash   : string;
  u_polLean    : PolLean;
  u_accVerify  : bool;
  u_dateCreate : Z
}.

(** Table [PostsData]. *)
Record Post : Type := mkPost {
  p_postID     : Z;
  p_username   : string;
  p_title      : string;
  p_body       : string;
  p_sources    : option string;
  p_datePosted : Z
}.

(** Table [Comments], with the columns the controller's statements name:
    [commentID], [postID], [parentCommentID], [username], [body],
    [datePosted]. (The [CREATE TABLE Comments] of the SQL file declares an
    [entityType]/[entityID] pair in place of the two references; every
    statement of [feedController.js] reads and filters [postID] and
    [parentCommentID], and the embedding follows the controller.) *)
Record Comment : Type := mkComment {
  c_commentID       : Z;
  c_postID          : option Z;
  c_parentCommentID : option Z;
  c_username        : string;
  c_body            : string;
  c_datePosted      : Z
}.

(** Table [Likes]. *)
Record Like : Type := mkLike {
  l_likeID     : Z;
  l_username   : string;
  l_entityType : EntityType;
  l_entityID   : Z;
  l_polLean    : PolLean;
  l_dateLiked  : Z
}.

(** The database: the four tables, the [AUTO_INCREMENT] counters, the
    connection's [LAST_INSERT_ID()] and the server clock read by
    [CURRENT_TIMESTAMP]. *)
Record DB : Type := mkDB {
  db_users         : list User;
  db_posts         : list Post;
  db_comments      : list Comment;
  db_likes         : list Like;
  db_nextCommentID : Z;
  db_nextLikeID    : Z;
  db_lastInsertId  : Z;
  db_now           : Z
}.

(** Constraints declared by the schema. *)
Definition pk_Users (db : DB) : Prop := NoDup (map u_username (db_users db)).
Definition like_key (l : Like) : string * EntityType * Z :=
  (l_username l, l_entityType l, l_entityID l).
(** [UNIQUE KEY unique_like (username, entityType, entityID)] *)
Definition unique_like (db : DB) : Prop := NoDup (map like_key (db_likes db)).

(* ================================================================== *)
(** ** JavaScript values *)

(** An object with string keys and number values, in insertion order. *)
Definition JsObject : Type := list (string * Z).

(** [o[k]]: [None] is [undefined]. *)
Fixpoint obj_get (k : string) (o : JsObject) : option Z :=
  match o with
  | [] => None
  | (k', v) :: r => if String.eqb k k' then Some v else obj_get k r
  end.

(** [o[k] = v]: an existing key keeps its place, a new key is appended. *)
Fixpoint obj_set (k : string) (v : Z) (o : JsObject) : JsObject :=
  match o with
  | [] => [(k, v)]
  | (k', v') :: r =>
      if String.eqb k k' then (k', v) :: r else (k', v') :: obj_set k v r
  end.

Definition Object_values (o : JsObject) : list Z := map snd o.

(** A number that may be [NaN] ([None]); [undefined + n] is [NaN]. *)
Definition JsNum : Type := option Z.

Definition js_add (a b : JsNum) : JsNum :=
  match a, b with Some x, Some y => Some (x + y) | _, _ => None end.
Definition js_sub (a b : JsNum) : JsNum :=
  match a, b with Some x, Some y => Some (x - y) | _, _ => None end.
Definition Math_abs (a : JsNum) : JsNum :=
  match a with Some x => Some (Z.abs x) | None => None end.

(** [Math.ceil(a / b)] for integers [a] and [b <> 0]. *)
Definition Math_ceil_div (a b : Z) : Z :=
  if a mod b =? 0 then a / b else a / b + 1.

(** [parseInt(s) || d], on the result of [parseInt] ([None] is [NaN]):
    [NaN] and [0] are falsy. *)
Definition parsed_or (n : option Z) (d : Z) : Z :=
  match n with
  | None => d
  | Some v => if v =? 0 then d else v
  end.

(** [s || d] for an optional string: [undefined] and [''] are falsy. *)
Definition string_or (s : option string) (d : string) : string :=
  match s with
  | None => d
  | Some v => if String.eqb v "" then d else v
  end.

(** Truthiness of an optional number field of a JSON body. *)
Definition truthy_num (n : option Z) : bool :=
  match n with
  | None => false
  | Some v => negb (v =? 0)
  end.

(** [n || null] *)
Definition num_or_null (n : option Z) : option Z :=
  if truthy_num n then n else None.

(** [hay.includes(needle)] *)
Fixpoint includes (needle hay : string) : bool :=
  if String.prefix needle hay then true
  else match hay with
       | EmptyString => false
       | String _ t => includes needle t
       end.

Definition lower_ascii (c : ascii) : ascii :=
  let n := nat_of_ascii c in
  if (Nat.leb 65 n && Nat.leb n 90)%bool then ascii_of_nat (n + 32) else c.

(** [s.toLowerCase()] on ASCII text. *)
Fixpoint toLowerCase (s : string) : string :=
  match s with
  | EmptyString => EmptyString
  | String c t => String (lower_ascii c) (toLowerCase t)
  end.

(** [['POST', 'COMMENT'].includes(entityType)] *)
Definition valid_entityType (s : string) : bool :=
  String.eqb s "POST" || String.eqb s "COMMENT".

(* ================================================================== *)
(** ** The [Db] monad: statements sent through [db.query] *)

Inductive Dir : Type := ASC | DESC.

(** The [orderClause] built by [getPosts]. *)
Inductive PostOrder : Type :=
  | OrdBalanced | OrdControversial | OrdRight | OrdLeft | OrdModerate | OrdRecent.

(** The [orderClause] built by [getComments]. *)
Inductive CommentOrder : Type :=
  | COrdControversial | COrdBalanced | COrdOldest | COrdRecent.

(** The statements the controller sends, with their bound parameters. *)
Inductive Sql : Type :=
  | SelectUserPolLean (username : string)
  | SelectPostID (postID : Z)
  | SelectCommentID (commentID : Z)
  | CallInsertLike (username entityType : string) (entityID : Z) (polLean : PolLean)
  | SelectLikeCounts (entityType : string) (entityID : Z)
  | DeleteLike (username entityType : string) (entityID : Z)
  | SelectPostsPage (order : PostOrder) (limit offset : Z)
  | SelectCountPosts
  | SelectPostByID (postID : Z)
  | SelectCommentsOfPost (postID : Z)
  | SelectCommentsPage (postID : Z) (parentCommentID : option Z)
                       (order : CommentOrder) (limit offset : Z)
  | SelectCountComments (postID : Z) (parentCommentID : option Z)
  | CallInsertComment (postID : option Z) (username : string)
                      (parentCommentID : option Z) (body : string)
  | SelectLastInsertId.

Record World : Type := mkWorld {
  w_db  : DB;
  w_log : list Sql
}.

(** A settled promise. *)
Inductive Outcome (A : Type) : Type :=
  | Resolved (a : A)
  | Rejected (msg : string).
Arguments Resolved {A} a.
Arguments Rejected {A} msg.

Definition Db (A : Type) : Type := World -> Outcome A * World.

Definition ret {A} (a : A) : Db A := fun w => (Resolved a, w).

Definition throw {A} (msg : string) : Db A := fun w => (Rejected msg, w).

Definition bind {A B} (m : Db A) (k : A -> Db B) : Db B :=
  fun w =>
    match m w with
    | (Resolved a, w') => k a w'
    | (Rejected msg, w') => (Rejected msg, w')
    end.

(** [try { m } catch (error) { h(error.message) }] *)
Definition try_catch {A} (m : Db A) (h : string -> Db A) : Db A :=
  fun w =>
    match m w with
    | (Resolved a, w') => (Resolved a, w')
    | (Rejected msg, w') => h msg w'
    end.

Notation "x <- m ;; k" := (bind m (fun x => k))
  (at level 61, m at next level, right associativity).

(** The statement goes out on the wire. *)
Definition sent (s : Sql) : Db unit :=
  fun w => (Resolved tt, mkWorld (w_db w) (w_log w ++ [s])).

Definition read {A} (f : DB -> A) : Db A :=
  fun w => (Resolved (f (w_db w)), w).

Definition write (f : DB -> DB) : Db unit :=
  fun w => (Resolved tt, mkWorld (f (w_db w)) (w_log w)).

(** [for (const x of xs) { ... }], collecting the updated objects. *)
Fixpoint for_each {A B} (f : A -> Db B) (xs : list A) : Db (list B) :=
  match xs with
  | [] => ret []
  | x :: r => y <- f x ;; ys <- for_each f r ;; ret (y :: ys)
  end.

(* ================================================================== *)
(** ** Evaluation of the statements *)

Definition count_if {A} (f : A -> bool) (rows : list A) : Z :=
  Z.of_nat (List.length (filter f rows)).

(** Comparison of a nullable column with a bound value: [NULL = v] holds
    for no row. *)
Definition col_is (col : option Z) (v : Z) : bool :=
  match col with Some x => x =? v | None => false end.

Definition col_is_null (col : option Z) : bool :=
  match col with Some _ => false | None => true end.

(** [WHERE entityType = ? AND entityID = ?] on [Likes]. *)
Definition like_on (entityType : string) (entityID : Z) (l : Like) : bool :=
  String.eqb (entityType_str (l_entityType l)) entityType && (l_entityID l =? entityID).

(** [WHERE username = ? AND entityType = ? AND entityID = ?] on [Likes]. *)
Definition like_of (username entityType : string) (entityID : Z) (l : Like) : bool :=
  String.eqb (l_username l) username && like_on entityType entityID l.

Definition is_right (p : PolLean) : bool :=
  match p with FR | R | SR => true | _ => false end.
Definition is_left (p : PolLean) : bool :=
  match p with FL | L | SL => true | _ => false end.
Definition is_moderate (p : PolLean) : bool :=
  match p with M => true | _ => false end.
Definition any_lean (p : PolLean) : bool := true.

(** [(SELECT COUNT FROM Likes WHERE entityType = .. AND entityID = ..
      AND polLean IN (..))], the scalar subquery of the order clauses. *)
Definition likes_in (db : DB) (entityType : string) (entityID : Z)
    (leans : PolLean -> bool) : Z :=
  count_if (fun l => like_on entityType entityID l && leans (l_polLean l)) (db_likes db).

(** [GROUP BY polLean] with [COUNT]: one row per leaning that occurs, in the
    order of the [ENUM]'s members. *)
Definition group_by_polLean (rows : list Like) : list (PolLean * Z) :=
  flat_map
    (fun p =>
       let n := count_if (fun l => polLean_eqb (l_polLean l) p) rows in
       if n =? 0 then [] else [(p, n)])
    all_polLean.

(** [ORDER BY]: the sort key of a row is the list of its order expressions
    with their directions. [sql_precedes ka kb] says a row with key [ka] may
    stand before a row with key [kb]. *)
Fixpoint sql_precedes (ka kb : list (Dir * Z)) : bool :=
  match ka, kb with
  | (d, a) :: ka', (_, b) :: kb' =>
      match (match d with ASC => a ?= b | DESC => b ?= a end) with
      | Lt => true
      | Gt => false
      | Eq => sql_precedes ka' kb'
      end
  | _, _ => true
  end.

Fixpoint sql_insert {A} (key : A -> list (Dir * Z)) (x : A) (sorted : list A) : list A :=
  match sorted with
  | [] => [x]
  | y :: r =>
      if sql_precedes (key x) (key y) then x :: y :: r
      else y :: sql_insert key x r
  end.

(** Rows with equal keys keep their storage order. *)
Definition sql_order_by {A} (key : A -> list (Dir * Z)) (rows : list A) : list A :=
  fold_right (sql_insert key) [] rows.

(** [LIMIT limit OFFSET offset] *)
Definition limit_offset {A} (limit offset : Z) (rows : list A) : list A :=
  firstn (Z.to_nat limit) (skipn (Z.to_nat offset) rows).

(** [FROM t JOIN Users u ON t.username = u.username] *)
Definition join_users {A} (username : A -> string) (rows : list A) (users : list User)
    : list (A * User) :=
  flat_map
    (fun r => map (pair r) (filter (fun u => String.eqb (username r) (u_username u)) users))
    rows.

(** The columns selected from [PostsData p JOIN Users u]. *)
Record PostRow : Type := mkPostRow {
  pr_postID     : Z;
  pr_title      : string;
  pr_body       : string;
  pr_sources    : option string;
  pr_datePosted : Z;
  pr_username   : string;
  pr_firstName  : string;
  pr_lastName   : string;
  pr_polLean    : PolLean
}.

Definition post_row (pu : Post * User) : PostRow :=
  let (p, u) := pu in
  mkPostRow (p_postID p) (p_title p) (p_body p) (p_sources p) (p_datePosted p)
            (u_username u) (u_firstName u) (u_lastName u) (u_polLean u).

(** The columns selected from [Comments c JOIN Users u] by [getPostById];
    [getComments] selects [c.postID] and [replyCount] as well. *)
Record CommentRow : Type := mkCommentRow {
  cr_commentID       : Z;
  cr_body            : string;
  cr_datePosted      : Z;
  cr_parentCommentID : option Z;
  cr_username        : string;
  cr_firstName       : string;
  cr_lastName        : string;
  cr_polLean         : PolLean
}.

Definition comment_row (cu : Comment * User) : CommentRow :=
  let (c, u) := cu in
  mkCommentRow (c_commentID c) (c_body c) (c_datePosted c) (c_parentCommentID c)
               (u_username u) (u_firstName u) (u_lastName u) (u_polLean u).

(** [ORDER BY ${orderClause}] of [getPosts]. *)
Definition post_order_key (db : DB) (order : PostOrder) (p : Post) : list (Dir * Z) :=
  let id := p_postID p in
  match order with
  | OrdBalanced =>
      [(ASC, Z.abs (likes_in db "POST" id is_right - likes_in db "POST" id is_left));
       (DESC, p_datePosted p)]
  | OrdControversial =>
      [(DESC, likes_in db "POST" id any_lean); (DESC, p_datePosted p)]
  | OrdRight =>
      [(DESC, likes_in db "POST" id is_right); (DESC, p_datePosted p)]
  | OrdLeft =>
      [(DESC, likes_in db "POST" id is_left); (DESC, p_datePosted p)]
  | OrdModerate =>
      [(DESC, likes_in db "POST" id is_moderate); (DESC, p_datePosted p)]
  | OrdRecent => [(DESC, p_datePosted p)]
  end.

(** [ORDER BY ${orderClause}] of [getComments]. *)
Definition comment_order_key (db : DB) (order : CommentOrder) (c : Comment)
    : list (Dir * Z) :=
  let id := c_commentID c in
  match order with
  | COrdControversial =>
      [(DESC, likes_in db "COMMENT" id any_lean); (DESC, c_datePosted c)]
  | COrdBalanced =>
      [(ASC, Z.abs (likes_in db "COMMENT" id is_right - likes_in db "COMMENT" id is_left));
       (DESC, c_datePosted c)]
  | COrdOldest => [(ASC, c_datePosted c)]
  | COrdRecent => [(DESC, c_datePosted c)]
  end.

(** [whereClause] of [getComments]: [c.postID = ?] and then either
    [c.parentCommentID IS NULL] or [c.parentCommentID = ?]. *)
Definition comment_where (postID : Z) (parentCommentID : option Z) (c : Comment) : bool :=
  col_is (c_postID c) postID &&
  match parentCommentID with
  | None => col_is_null (c_parentCommentID c)
  | Some q => col_is (c_parentCommentID c) q
  end.

(** The full ordering of the scope "all posts" under an order clause, with
    the [commentCount] subquery evaluated for each row. *)
Definition posts_ordered (db : DB) (order : PostOrder) : list (PostRow * Z) :=
  map (fun pu =>
         (post_row pu, count_if (fun c => col_is (c_postID c) (p_postID (fst pu))) (db_comments db)))
      (sql_order_by (fun pu => post_order_key db order (fst pu))
                    (join_users p_username (db_posts db) (db_users db))).

(** The full ordering of the scope "comments of a post at a thread level":
    each row with [c.postID] and the [replyCount] subquery. *)
Definition comments_ordered (db : DB) (postID : Z) (parentCommentID : option Z)
    (order : CommentOrder) : list (CommentRow * option Z * Z) :=
  map (fun cu =>
         (comment_row cu, c_postID (fst cu),
          count_if (fun c => col_is (c_parentCommentID c) (c_commentID (fst cu))) (db_comments db)))
      (sql_order_by (fun cu => comment_order_key db order (fst cu))
                    (filter (fun cu => comment_where postID parentCommentID (fst cu))
                            (join_users c_username (db_comments db) (db_users db)))).

Definition entityType_of_string (s : string) : option EntityType :=
  if String.eqb s "POST" then Some POST
  else if String.eqb s "COMMENT" then Some COMMENT
  else None.

Definition user_known (db : DB) (username : string) : bool :=
  existsb (fun u => String.eqb (u_username u) username) (db_users db).

(** ['SELECT polLean FROM Users WHERE username = ?'] *)
Definition q_selectUserPolLean (username : string) : Db (list PolLean) :=
  _ <- sent (SelectUserPolLean username) ;;
  read (fun db =>
          map u_polLean (filter (fun u => String.eqb (u_username u) username) (db_users db))).

(** ['SELECT postID FROM PostsData WHERE postID = ?'] *)
Definition q_selectPostID (postID : Z) : Db (list Z) :=
  _ <- sent (SelectPostID postID) ;;
  read (fun db => filter (fun i => i =? postID) (map p_postID (db_posts db))).

(** ['SELECT commentID FROM Comments WHERE commentID = ?'] *)
Definition q_selectCommentID (commentID : Z) : Db (list Z) :=
  _ <- sent (SelectCommentID commentID) ;;
  read (fun db => filter (fun i => i =? commentID) (map c_commentID (db_comments db))).

(** [SELECT polLean, COUNT as count FROM Likes
     WHERE entityType = ? AND entityID = ? GROUP BY polLean] *)
Definition q_selectLikeCounts (entityType : string) (entityID : Z)
    : Db (list (PolLean * Z)) :=
  _ <- sent (SelectLikeCounts entityType entityID) ;;
  read (fun db => group_by_polLean (filter (like_on entityType entityID) (db_likes db))).

Definition insert_like (username : string) (et : EntityType) (entityID : Z)
    (polLean : PolLean) (db : DB) : DB :=
  mkDB (db_users db) (db_posts db) (db_comments db)
       (db_likes db ++ [mkLike (db_nextLikeID db) username et entityID polLean (db_now db)])
       (db_nextCommentID db) (db_nextLikeID db + 1) (db_nextLikeID db) (db_now db).

(** [CALL insertLike(?, ?, ?, ?)]: the stored procedure signals
    ['Like Already Exists'] when a row for the triple exists, and otherwise
    inserts the row and selects ['Like Added']. The [INSERT] itself fails on
    a username outside [Users] (foreign key). *)
Definition call_insertLike (username entityType : string) (entityID : Z)
    (polLean : PolLean) : Db string :=
  _ <- sent (CallInsertLike username entityType entityID polLean) ;;
  match entityType_of_string entityType with
  | None => throw "Data truncated for column p_entityType"
  | Some et =>
      present <- read (fun db => existsb (like_of username entityType entityID) (db_likes db)) ;;
      if present then throw "Like Already Exists"
      else
        known <- read (fun db => user_known db username) ;;
        if negb known then throw "Cannot add or update a child row: a foreign key constraint fails"
        else
          _ <- write (insert_like username et entityID polLean) ;;
          ret "Like Added"
  end.

Definition delete_like (username entityType : string) (entityID : Z) (db : DB) : DB :=
  mkDB (db_users db) (db_posts db) (db_comments db)
       (filter (fun l => negb (like_of username entityType entityID l)) (db_likes db))
       (db_nextCommentID db) (db_nextLikeID db) (db_lastInsertId db) (db_now db).

(** ['DELETE FROM Likes WHERE username = ? AND entityType = ? AND entityID = ?'],
    resolving to [affectedRows]. *)
Definition q_deleteLike (username entityType : string) (entityID : Z) : Db Z :=
  _ <- sent (DeleteLike username entityType entityID) ;;
  affectedRows <- read (fun db => count_if (like_of username entityType entityID) (db_likes db)) ;;
  _ <- write (delete_like username entityType entityID) ;;
  ret affectedRows.

(** [SELECT ... FROM PostsData p JOIN Users u ON p.username = u.username
     ORDER BY ${orderClause} LIMIT ? OFFSET ?]; a negative [LIMIT] or
    [OFFSET] is rejected by the server. *)
Definition q_selectPostsPage (order : PostOrder) (limit offset : Z)
    : Db (list (PostRow * Z)) :=
  _ <- sent (SelectPostsPage order limit offset) ;;
  if (limit <? 0) || (offset <? 0) then throw "You have an error in your SQL syntax"
  else read (fun db => limit_offset limit offset (posts_ordered db order)).

(** ['SELECT COUNT as total FROM PostsData'] *)
Definition q_selectCountPosts : Db Z :=
  _ <- sent SelectCountPosts ;;
  read (fun db => Z.of_nat (List.length (db_posts db))).

(** [SELECT ... FROM PostsData p JOIN Users u ... WHERE p.postID = ?] *)
Definition q_selectPostByID (postID : Z) : Db (list PostRow) :=
  _ <- sent (SelectPostByID postID) ;;
  read (fun db =>
          map post_row
              (filter (fun pu => p_postID (fst pu) =? postID)
                      (join_users p_username (db_posts db) (db_users db)))).

(** [SELECT ... FROM Comments c JOIN Users u ... WHERE c.postID = ?
     ORDER BY c.datePosted ASC] *)
Definition q_selectCommentsOfPost (postID : Z) : Db (list CommentRow) :=
  _ <- sent (SelectCommentsOfPost postID) ;;
  read (fun db =>
          map comment_row
              (sql_order_by (fun cu => [(ASC, c_datePosted (fst cu))])
                 (filter (fun cu => col_is (c_postID (fst cu)) postID)
                         (join_users c_username (db_comments db) (db_users db))))).

(** [SELECT ... FROM Comments c JOIN Users u ... WHERE ${whereClause}
     ORDER BY ${orderClause} LIMIT ? OFFSET ?] *)
Definition q_selectCommentsPage (postID : Z) (parentCommentID : option Z)
    (order : CommentOrder) (limit offset : Z) : Db (list (CommentRow * option Z * Z)) :=
  _ <- sent (SelectCommentsPage postID parentCommentID order limit offset) ;;
  if (limit <? 0) || (offset <? 0) then throw "You have an error in your SQL syntax"
  else read (fun db =>
               limit_offset limit offset (comments_ordered db postID parentCommentID order)).

(** [SELECT COUNT as total FROM Comments WHERE ${whereClause}] *)
Definition q_selectCountComments (postID : Z) (parentCommentID : option Z) : Db Z :=
  _ <- sent (SelectCountComments postID parentCommentID) ;;
  read (fun db => count_if (comment_where postID parentCommentID) (db_comments db)).

Definition insert_comment (postID : option Z) (username : string)
    (parentCommentID : option Z) (body : string) (db : DB) : DB :=
  mkDB (db_users db) (db_posts db)
       (db_comments db ++
          [mkComment (db_nextCommentID db) postID parentCommentID username body (db_now db)])
       (db_likes db)
       (db_nextCommentID db + 1) (db_nextLikeID db) (db_nextCommentID db) (db_now db).

(** Modelled from the spec: the stored procedure behind
    [CALL insertComment(postID, username, parentCommentID, body)]. The SQL
    file of the repository defines [insertComment] over
    [(entityType, entityID, username, body)], not with the four parameters
    the controller binds, so the procedure is taken from the storage
    contract "Insert-comment(author, body, postID | parentCommentID) gives a
    new commentID; fails InvalidParent if the referenced post/comment does
    not exist", with the messages of the repository's procedure: each
    reference that is given must exist, and the row stores the two
    references as they were bound. *)
Definition call_insertComment (postID : option Z) (username : string)
    (parentCommentID : option Z) (body : string) : Db string :=
  _ <- sent (CallInsertComment postID username parentCommentID body) ;;
  postOk <- read (fun db =>
                    match postID with
                    | None => true
                    | Some q => existsb (fun p => p_postID p =? q) (db_posts db)
                    end) ;;
  parentOk <- read (fun db =>
                      match parentCommentID with
                      | None => true
                      | Some q => existsb (fun c => c_commentID c =? q) (db_comments db)
                      end) ;;
  if negb postOk then throw "Invalid Post ID"
  else if negb parentOk then throw "Invalid Comment ID"
  else
    known <- read (fun db => user_known db username) ;;
    if negb known then throw "Cannot add or update a child row: a foreign key constraint fails"
    else
      _ <- write (insert_comment postID username parentCommentID body) ;;
      ret "Comment Created".

(** ['SELECT LAST_INSERT_ID() as commentID'] *)
Definition q_selectLastInsertId : Db Z :=
  _ <- sent SelectLastInsertId ;;
  read db_lastInsertId.

(* ================================================================== *)
(** ** Responses *)

(** An element of [posts] in the answer of [getPosts]: the selected row and
    the properties the handler adds to it. *)
Record PostItem : Type := mkPostItem {
  pi_row               : PostRow;
  pi_commentCount      : Z;
  pi_likes             : JsObject;
  pi_totalLikes        : JsNum;
  pi_rightLikes        : JsNum;
  pi_leftLikes         : JsNum;
  pi_moderateLikes     : JsNum;
  pi_polarizationScore : JsNum
}.

(** An element of [post.comments] in the answer of [getPostById]. *)
Record CommentBrief : Type := mkCommentBrief {
  cb_row   : CommentRow;
  cb_likes : JsObject
}.

(** [post] in the answer of [getPostById]. *)
Record PostDetail : Type := mkPostDetail {
  pd_row      : PostRow;
  pd_likes    : JsObject;
  pd_comments : list CommentBrief
}.

(** An element of [comments] in the answer of [getComments]. *)
Record CommentItem : Type := mkCommentItem {
  ci_row        : CommentRow;
  ci_postID     : option Z;
  ci_replyCount : Z;
  ci_likes      : JsObject;
  ci_totalLikes : JsNum
}.

Inductive Payload : Type :=
  | NoPayload
  | PostsPayload (currentPage totalPages totalPosts postsPerPage : Z)
                 (sortBy : string) (posts : list PostItem)
  | PostPayload (post : PostDetail)
  | CommentsPayload (currentPage totalPages totalComments commentsPerPage : Z)
                    (sortBy : string) (parentCommentID : option Z)
                    (comments : list CommentItem)
  | CommentIDPayload (commentID : Z)
  | LikesPayload (likes : JsObject).

(** [res.status(status).json({ success, message, ...payload })] *)
Record Response : Type := mkResponse {
  status  : Z;
  success : bool;
  message : option string;
  payload : Payload
}.

(** The handler returned without answering the request. *)
Definition no_response : Response := mkResponse 0 false None NoPayload.

(** The outer [try { ... } catch (error) { res.status(500).json(...) }]. *)
Definition handler (body : Db Response) (failure : string) : World -> Response * World :=
  fun w =>
    match body w with
    | (Resolved r, w') => (r, w')
    | (Rejected _, w') => (mkResponse 500 false (Some failure) NoPayload, w')
    end.

(* ================================================================== *)
(** ** Like aggregation *)

(** [{ 'FL': 0, 'L': 0, 'SL': 0, 'M': 0, 'SR': 0, 'R': 0, 'FR': 0 }] *)
Definition zero_likes : JsObject :=
  [("FL", 0); ("L", 0); ("SL", 0); ("M", 0); ("SR", 0); ("R", 0); ("FR", 0)].

(** [likeCounts.forEach(like => { likes[like.polLean] = like.count; })]
    over the zero-initialised object. *)
Definition fill_likes (likeCounts : list (PolLean * Z)) : JsObject :=
  fold_left (fun likes like => obj_set (polLean_str (fst like)) (snd like) likes)
            likeCounts zero_likes.

(** [Object.values(likes).reduce((sum, count) => sum + count, 0)] *)
Definition sum_values (likes : JsObject) : JsNum :=
  fold_left (fun sum count => js_add sum (Some count)) (Object_values likes) (Some 0).

(* ================================================================== *)
(** ** [exports.getPosts] *)

Record GetPostsReq : Type := mkGetPostsReq {
  gp_page   : option Z;        (* parseInt(req.query.page) *)
  gp_limit  : option Z;        (* parseInt(req.query.limit) *)
  gp_sortBy : option string    (* req.query.sortBy *)
}.

(** The [switch (sortBy)] of [getPosts]. *)
Definition post_orderClause (sortBy : string) : PostOrder :=
  if String.eqb sortBy "balanced" then OrdBalanced
  else if String.eqb sortBy "controversial" then OrdControversial
  else if String.eqb sortBy "right" then OrdRight
  else if String.eqb sortBy "left" then OrdLeft
  else if String.eqb sortBy "moderate" then OrdModerate
  else OrdRecent.

(** The body of [for (const post of posts)]. *)
Definition post_with_likes (post : PostRow * Z) : Db PostItem :=
  likeCounts <- q_selectLikeCounts "POST" (pr_postID (fst post)) ;;
  let likes := fill_likes likeCounts in
  let totalLikes := sum_values likes in
  let rightLikes := js_add (js_add (obj_get "FR" likes) (obj_get "R" likes)) (obj_get "SR" likes) in
  let leftLikes := js_add (js_add (obj_get "FL" likes) (obj_get "L" likes)) (obj_get "SL" likes) in
  let moderateLikes := obj_get "M" likes in
  let polarizationScore := Math_abs (js_sub rightLikes leftLikes) in
  ret (mkPostItem (fst post) (snd post) likes totalLikes rightLikes leftLikes
                  moderateLikes polarizationScore).

Definition getPosts (req : GetPostsReq) : World -> Response * World :=
  handler
    (let page := parsed_or (gp_page req) 1 in
     let limit := parsed_or (gp_limit req) 10 in
     let sortBy := string_or (gp_sortBy req) "recent" in
     let offset := (page - 1) * limit in
     let orderClause := post_orderClause sortBy in
     posts <- q_selectPostsPage orderClause limit offset ;;
     posts <- for_each post_with_likes posts ;;
     totalPosts <- q_selectCountPosts ;;
     let totalPages := Math_ceil_div totalPosts limit in
     ret (mkResponse 200 true None
            (PostsPayload page totalPages totalPosts limit sortBy posts)))
    "Server error while fetching posts".

(* ================================================================== *)
(** ** [exports.getPostById] *)

Definition comment_with_likes (comment : CommentRow) : Db CommentBrief :=
  commentLikeCounts <- q_selectLikeCounts "COMMENT" (cr_commentID comment) ;;
  ret (mkCommentBrief comment (fill_likes commentLikeCounts)).

Definition getPostById (postID : Z) : World -> Response * World :=
  handler
    (posts <- q_selectPostByID postID ;;
     match posts with
     | [] => ret (mkResponse 404 false (Some "Post not found") NoPayload)
     | post :: _ =>
         likeCounts <- q_selectLikeCounts "POST" postID ;;
         let likes := fill_likes likeCounts in
         comments <- q_selectCommentsOfPost postID ;;
         comments <- for_each comment_with_likes comments ;;
         ret (mkResponse 200 true None (PostPayload (mkPostDetail post likes comments)))
     end)
    "Server error while fetching post".

(* ================================================================== *)
(** ** [exports.addComment] *)

Record AddCommentReq : Type := mkAddCommentReq {
  ac_username        : string;      (* req.user.username *)
  ac_postID          : option Z;    (* req.body.postID *)
  ac_body            : string;      (* req.body.body; '' when absent *)
  ac_parentCommentID : option Z     (* req.body.parentCommentID *)
}.

Definition addComment (req : AddCommentReq) : World -> Response * World :=
  handler
    (let postID := ac_postID req in
     let body := ac_body req in
     let parentCommentID := ac_parentCommentID req in
     let username := ac_username req in
     if String.eqb body "" then
       ret (mkResponse 400 false (Some "Comment body is required") NoPayload)
     else if negb (truthy_num postID) && negb (truthy_num parentCommentID) then
       ret (mkResponse 400 false
              (Some "Either postID or parentCommentID must be provided") NoPayload)
     else
       message <- call_insertComment (num_or_null postID) username
                                     (num_or_null parentCommentID) body ;;
       if String.eqb message "Comment Created" then
         commentID <- q_selectLastInsertId ;;
         ret (mkResponse 201 true (Some "Comment added successfully")
                (CommentIDPayload commentID))
       else
         ret (mkResponse 500 false (Some "Failed to add comment") NoPayload))
    "Server error while adding comment".

(* ================================================================== *)
(** ** [exports.getComments] *)

Record GetCommentsReq : Type := mkGetCommentsReq {
  gc_postID   : Z;               (* req.params.postID *)
  gc_page     : option Z;        (* parseInt(req.query.page) *)
  gc_limit    : option Z;        (* parseInt(req.query.limit) *)
  gc_sortBy   : option string;   (* req.query.sortBy *)
  gc_parentID : option Z         (* req.query.parentID || null *)
}.

(** The [switch (sortBy)] of [getComments]. *)
Definition comment_orderClause (sortBy : string) : CommentOrder :=
  if String.eqb sortBy "controversial" then COrdControversial
  else if String.eqb sortBy "balanced" then COrdBalanced
  else if String.eqb sortBy "oldest" then COrdOldest
  else COrdRecent.

Definition comment_item (comment : CommentRow * option Z * Z) : Db CommentItem :=
  likeCounts <- q_selectLikeCounts "COMMENT" (cr_commentID (fst (fst comment))) ;;
  let likes := fill_likes likeCounts in
  ret (mkCommentItem (fst (fst comment)) (snd (fst comment)) (snd comment)
                     likes (sum_values likes)).

Definition getComments (req : GetCommentsReq) : World -> Response * World :=
  handler
    (let postID := gc_postID req in
     let page := parsed_or (gc_page req) 1 in
     let limit := parsed_or (gc_limit req) 20 in
     let sortBy := string_or (gc_sortBy req) "recent" in
     let parentCommentID := gc_parentID req in
     let offset := (page - 1) * limit in
     posts <- q_selectPostID postID ;;
     match posts with
     | [] => ret (mkResponse 404 false (Some "Post not found") NoPayload)
     | _ :: _ =>
         let orderClause := comment_orderClause sortBy in
         comments <- q_selectCommentsPage postID parentCommentID orderClause limit offset ;;
         comments <- for_each comment_item comments ;;
         totalComments <- q_selectCountComments postID parentCommentID ;;
         let totalPages := Math_ceil_div totalComments limit in
         ret (mkResponse 200 true None
                (CommentsPayload page totalPages totalComments limit sortBy
                                 parentCommentID comments))
     end)
    "Server error while fetching comments".

(* ================================================================== *)
(** ** [exports.addLike] and [exports.removeLike] *)

Record LikeReq : Type := mkLikeReq {
  lk_username   : string;   (* req.user.username *)
  lk_entityType : string;   (* req.body.entityType *)
  lk_entityID   : Z         (* req.body.entityID *)
}.

Definition addLike (req : LikeReq) : World -> Response * World :=
  handler
    (let entityType := lk_entityType req in
     let entityID := lk_entityID req in
     let username := lk_username req in
     users <- q_selectUserPolLean username ;;
     match users with
     | [] => ret (mkResponse 404 false (Some "User not found") NoPayload)
     | userPolLean :: _ =>
         if negb (valid_entityType entityType) then
           ret (mkResponse 400 false
                  (Some "Entity type must be either POST or COMMENT") NoPayload)
         else
           found <- (if String.eqb entityType "POST"
                     then q_selectPostID entityID
                     else q_selectCommentID entityID) ;;
           let entityExists := (0 <? Z.of_nat (List.length found)) in
           if negb entityExists then
             ret (mkResponse 404 false
                    (Some (toLowerCase entityType ++ " not found")%string) NoPayload)
           else
             try_catch
               (message <- call_insertLike username entityType entityID userPolLean ;;
                if String.eqb message "Like Added" then
                  likeCounts <- q_selectLikeCounts entityType entityID ;;
                  ret (mkResponse 201 true (Some "Like added successfully")
                         (LikesPayload (fill_likes likeCounts)))
                else ret no_response)
               (fun error_message =>
                  if includes "Like Already Exists" error_message then
                    ret (mkResponse 409 false
                           (Some "You have already liked this item") NoPayload)
                  else throw error_message)
     end)
    "Server error while adding like".

Definition removeLike (req : LikeReq) : World -> Response * World :=
  handler
    (let entityType := lk_entityType req in
     let entityID := lk_entityID req in
     let username := lk_username req in
     if negb (valid_entityType entityType) then
       ret (mkResponse 400 false
              (Some "Entity type must be either POST or COMMENT") NoPayload)
     else
       affectedRows <- q_deleteLike username entityType entityID ;;
       if affectedRows =? 0 then
         ret (mkResponse 404 false (Some "Like not found") NoPayload)
       else
         likeCounts <- q_selectLikeCounts entityType entityID ;;
         ret (mkResponse 200 true (Some "Like removed successfully")
                (LikesPayload (fill_likes likeCounts))))
    "Server error while removing like".

(* ================================================================== *)
(** ** The seed data of the SQL file, used by the examples *)

Definition seed_users : list User :=
  [ mkUser "johndoe" "John" "Doe" "johndoe@example.com" "hashedpass123" M true 1000;
    mkUser "janedoe" "Jane" "Doe" "janedoe@example.com" "hashedpass456" L true 1000;
    mkUser "mark123" "Mark" "Smith" "mark123@example.com" "hashedpass789" R true 1000;
    mkUser "sarahX" "Sarah" "Xavier" "sarahx@example.com" "hashedpass111" FL true 1000;
    mkUser "tomGOP" "Tom" "Greene" "tomgop@example.com" "hashedpass222" FR true 1000 ].

Definition seed_posts : list Post :=
  [ mkPost 1 "johndoe" "The Green Energy Investment Act"
           "A proposed bill aims to allocate $100 billion towards renewable energy."
           (Some "https://energynews.com") 1001;
    mkPost 2 "mark123" "National Voter ID Requirement"
           "A new law proposal would require a government-issued photo ID to vote."
           (Some "https://govtrack.org") 1002 ].

Definition seed_comments : list Comment :=
  [ mkComment 1 (Some 1) None "janedoe" "Finally, some real investment in our future!" 1003;
    mkComment 2 (Some 1) None "tomGOP" "Whos paying for this?" 1004;
    mkComment 3 (Some 1) None "sarahX" "This should have happened years ago." 1005;
    mkComment 4 (Some 2) None "johndoe" "This could make voting harder." 1006;
    mkComment 5 (Some 2) None "tomGOP" "Election integrity is key!" 1007;
    mkComment 6 (Some 2) None "sarahX" "This disproportionately affects minorities." 1008 ].

Definition seed_db : DB := mkDB seed_users seed_posts seed_comments [] 7 1 0 2000.

Definition seed : World := mkWorld seed_db [].

(** The seed with three likes on post 1 and one on comment 1. *)
Definition liked_db : DB :=
  mkDB seed_users seed_posts seed_comments
       [ mkLike 1 "janedoe" POST 1 L 1500;
         mkLike 2 "tomGOP" POST 1 FR 1501;
         mkLike 3 "mark123" COMMENT 1 R 1502;
         mkLike 4 "sarahX" POST 1 FL 1503 ]
       7 5 4 2000.

Definition liked : World := mkWorld liked_db [].

(* ================================================================== *)
(** ** What the handlers compute, as functions of the tables *)

(** The number of stored likes of one leaning on an entity. *)
Definition like_count (db : DB) (entityType : string) (entityID : Z) (p : PolLean) : Z :=
  count_if (fun l => polLean_eqb (l_polLean l) p)
           (filter (like_on entityType entityID) (db_likes db)).

(** The like-count statement followed by the zero-fill: the aggregation
    every handler performs for an entity. *)
Definition like_distribution (db : DB) (entityType : string) (entityID : Z) : JsObject :=
  fill_likes (group_by_polLean (filter (like_on entityType entityID) (db_likes db))).

(** A distribution that holds exactly the seven leaning keys, each with the
    number of likes stored for it. *)
Definition reports_all_seven (db : DB) (entityType : string) (entityID : Z)
    (likes : JsObject) : Prop :=
  likes =
  [ ("FL", like_count db entityType entityID FL);
    ("L",  like_count db entityType entityID L);
    ("SL", like_count db entityType entityID SL);
    ("M",  like_count db entityType entityID M);
    ("SR", like_count db entityType entityID SR);
    ("R",  like_count db entityType entityID R);
    ("FR", like_count db entityType entityID FR) ].

Definition post_item (db : DB) (post : PostRow * Z) : PostItem :=
  let likes := like_distribution db "POST" (pr_postID (fst post)) in
  let rightLikes := js_add (js_add (obj_get "FR" likes) (obj_get "R" likes)) (obj_get "SR" likes) in
  let leftLikes := js_add (js_add (obj_get "FL" likes) (obj_get "L" likes)) (obj_get "SL" likes) in
  mkPostItem (fst post) (snd post) likes (sum_values likes) rightLikes leftLikes
             (obj_get "M" likes) (Math_abs (js_sub rightLikes leftLikes)).

Definition comment_brief (db : DB) (comment : CommentRow) : CommentBrief :=
  mkCommentBrief comment (like_distribution db "COMMENT" (cr_commentID comment)).

Definition comment_item_of (db : DB) (comment : CommentRow * option Z * Z) : CommentItem :=
  let likes := like_distribution db "COMMENT" (cr_commentID (fst (fst comment))) in
  mkCommentItem (fst (fst comment)) (snd (fst comment)) (snd comment) likes (sum_values likes).

(** Projections of an answer. *)
Definition returned_posts (r : Response) : list PostItem :=
  match payload r with PostsPayload _ _ _ _ _ posts => posts | _ => [] end.

Definition returned_comments (r : Response) : list CommentItem :=
  match payload r with CommentsPayload _ _ _ _ _ _ comments => comments | _ => [] end.


Definition returned_likes (r : Response) : option JsObject :=
  match payload r with LikesPayload likes => Some likes | _ => None end.

(** [totalPosts] or [totalComments]. *)
Definition returned_totalCount (r : Response) : option Z :=
  match payload r with
  | PostsPayload _ _ total _ _ _ => Some total
  | CommentsPayload _ _ total _ _ _ _ => Some total
  | _ => None
  end.

Definition returned_totalPages (r : Response) : option Z :=
  match payload r with
  | PostsPayload _ pages _ _ _ _ => Some pages
  | CommentsPayload _ pages _ _ _ _ _ => Some pages
  | _ => None
  end.








(** The entity named by a like request exists. *)
Definition entity_exists (db : DB) (entityType : string) (entityID : Z) : Prop :=
  (entityType = "POST" /\ In entityID (map p_postID (db_posts db))) \/
  (entityType = "COMMENT" /\ In entityID (map c_commentID (db_comments db))).

(** The triple of a like request is in the [Liked] state. *)
Definition liked_by (db : DB) (username entityType : string) (entityID : Z) : Prop :=
  exists l, In l (db_likes db) /\ l_username l = username /\
            entityType_str (l_entityType l) = entityType /\ l_entityID l = entityID.


(* ================================================================== *)
(** ** [exports.createPost] *)

(** The database together with the [AUTO_INCREMENT] counter of
    [PostsData]. *)
Record Store : Type := mkStore {
  st_db         : DB;
  st_nextPostID : Z
}.

Record CreatePostReq : Type := mkCreatePostReq {
  cp_username : string;          (* req.user.username *)
  cp_title    : string;          (* req.body.title; '' when absent *)
  cp_body     : string;          (* req.body.body; '' when absent *)
  cp_sources  : option string    (* req.body.sources *)
}.

(** [res.status(status).json({ success, message, postID })] *)
Record CreatePostResponse : Type := mkCreatePostResponse {
  cpr_status  : Z;
  cpr_success : bool;
  cpr_message : string;
  cpr_postID  : option Z
}.

(** [s || null] for an optional string. *)
Definition string_or_null (s : option string) : option string :=
  match s with
  | None => None
  | Some v => if String.eqb v "" then None else Some v
  end.

Definition insert_post (username title body : string) (sources : option string)
    (st : Store) : Store :=
  let db := st_db st in
  mkStore
    (mkDB (db_users db)
          (db_posts db ++
             [mkPost (st_nextPostID st) username title body sources (db_now db)])
          (db_comments db) (db_likes db)
          (db_nextCommentID db) (db_nextLikeID db) (st_nextPostID st) (db_now db))
    (st_nextPostID st + 1).

(** [CALL insertPost(?, ?, ?, ?)]: the procedure inserts the row and selects
    ['Post Created']; the [INSERT] fails on a username outside [Users]
    (foreign key). *)
Definition call_insertPost (username title body : string) (sources : option string)
    (st : Store) : Outcome string * Store :=
  if negb (user_known (st_db st) username) then
    (Rejected "Cannot add or update a child row: a foreign key constraint fails", st)
  else (Resolved "Post Created", insert_post username title body sources st).

Definition createPost (req : CreatePostReq) (st : Store) : CreatePostResponse * Store :=
  let title := cp_title req in
  let body := cp_body req in
  let sources := cp_sources req in
  let username := cp_username req in
  if String.eqb title "" || String.eqb body "" then
    (mkCreatePostResponse 400 false "Title and body are required" None, st)
  else
    match call_insertPost username title body (string_or_null sources) st with
    | (Resolved message, st') =>
        if String.eqb message "Post Created" then
          (* 'SELECT LAST_INSERT_ID() as postID' *)
          let postID := db_lastInsertId (st_db st') in
          (mkCreatePostResponse 201 true "Post created successfully" (Some postID), st')
        else
          (mkCreatePostResponse 500 false "Failed to create post" None, st')
    | (Rejected _, st') =>
        (mkCreatePostResponse 500 false "Server error while creating post" None, st')
    end.

(* ================================================================== *)
(** ** Consistency of the [Likes] table *)

(** [FOREIGN KEY (username) REFERENCES Users(username)] on [Likes]. *)
Definition fk_Likes_Users (db : DB) : Prop :=
  forall l, In l (db_likes db) -> In (l_username l) (map u_username (db_users db)).

(** [likeID INT AUTO_INCREMENT PRIMARY KEY]: the ids are distinct and below
    the counter. *)
Definition pk_Likes (db : DB) : Prop :=
  NoDup (map l_likeID (db_likes db)) /\
  forall l, In l (db_likes db) -> l_likeID l < db_nextLikeID db.

(** Every like is on a post or a comment that exists. *)
Definition likes_on_entities (db : DB) : Prop :=
  forall l, In l (db_likes db) ->
            entity_exists db (entityType_str (l_entityType l)) (l_entityID l).

(** The statements that only read. *)
Definition is_select (s : Sql) : bool :=
  match s with
  | CallInsertLike _ _ _ _ | DeleteLike _ _ _ | CallInsertComment _ _ _ _ => false
  | _ => true
  end.

(* ================================================================== *)
(** ** Rankings *)

(** [a] may stand before [b] when ranking by a number, larger first, ties
    by the more recent date. *)
Definition ranks_desc (va vb : JsNum) (da db : Z) : Prop :=
  exists x y, va = Some x /\ vb = Some y /\ (y < x \/ (y = x /\ db <= da)).

(** The same, smaller number first. *)
Definition ranks_asc (va vb : JsNum) (da db : Z) : Prop :=
  exists x y, va = Some x /\ vb = Some y /\ (x < y \/ (x = y /\ db <= da)).


(* ================================================================== *)
(** ** [insertUser] and [controllers/authController.js] *)

Definition polLean_of_string (s : string) : option PolLean :=
  if String.eqb s "FL" then Some FL
  else if String.eqb s "L" then Some L
  else if String.eqb s "SL" then Some SL
  else if String.eqb s "M" then Some M
  else if String.eqb s "SR" then Some SR
  else if String.eqb s "R" then Some R
  else if String.eqb s "FR" then Some FR
  else None.

(** [validPolLeans.includes(polLean)] *)
Definition valid_polLean (s : string) : bool :=
  existsb (String.eqb s) ["FL"; "L"; "SL"; "M"; "SR"; "R"; "FR"].

(** The [VARCHAR] sizes of the parameters of [insertUser]; the server
    (strict mode) rejects a longer value when the procedure is called.
    Lengths are counted on ASCII text. *)
Definition fits_insertUser (username firstName lastName email passHash : string) : bool :=
  (Nat.leb (String.length username) 50 && Nat.leb (String.length firstName) 50 &&
   Nat.leb (String.length lastName) 50 && Nat.leb (String.length email) 100 &&
   Nat.leb (String.length passHash) 255)%bool.

Definition insert_user (username firstName lastName email passHash : string)
    (polLean : PolLean) (db : DB) : DB :=
  mkDB (db_users db ++
          [mkUser username firstName lastName email passHash polLean false (db_now db)])
       (db_posts db) (db_comments db) (db_likes db)
       (db_nextCommentID db) (db_nextLikeID db) (db_lastInsertId db) (db_now db).

(** [CALL insertUser(?, ?, ?, ?, ?, ?)]: the parameters are bound to their
    [VARCHAR] and [ENUM] types; the procedure signals ['Username in Use']
    or ['Email in Use'], or inserts the user, not verified, and selects
    ['User Created']. *)
Definition call_insertUser (username firstName lastName email passHash polLean : string)
    (db : DB) : Outcome string * DB :=
  if negb (fits_insertUser username firstName lastName email passHash) then
    (Rejected "Data too long for column", db)
  else
    match polLean_of_string polLean with
    | None => (Rejected "Data truncated for column p_polLean", db)
    | Some lean =>
        if existsb (fun u => String.eqb (u_username u) username) (db_users db) then
          (Rejected "Username in Use", db)
        else if existsb (fun u => String.eqb (u_email u) email) (db_users db) then
          (Rejected "Email in Use", db)
        else
          (Resolved "User Created",
           insert_user username firstName lastName email passHash lean db)
    end.

Record RegisterReq : Type := mkRegisterReq {
  rg_username  : string;   (* the fields of req.body; '' when absent *)
  rg_firstName : string;
  rg_lastName  : string;
  rg_email     : string;
  rg_password  : string;
  rg_polLean   : string
}.

Record LoginReq : Type := mkLoginReq {
  lg_username : string;    (* req.body.username; '' when absent *)
  lg_password : string     (* req.body.password; '' when absent *)
}.

(** The [user] object of an answer. *)
Record UserView : Type := mkUserView {
  uv_username   : string;
  uv_firstName  : string;
  uv_lastName   : string;
  uv_email      : string;
  uv_polLean    : string;
  uv_accVerify  : option bool;
  uv_dateCreate : option Z
}.

(** [res.status(status).json({ success, message, token, user })] *)
Record AuthResponse : Type := mkAuthResponse {
  ar_status  : Z;
  ar_success : bool;
  ar_message : option string;
  ar_token   : option string;
  ar_user    : option UserView
}.

Section Auth.
(** The library calls of the controller and of the middleware. *)
Variable bcrypt_hash : string -> string.            (* bcrypt.hash(password, 10) *)
Variable bcrypt_compare : string -> string -> bool. (* bcrypt.compare(password, hash) *)
Variable jwt_sign : list (string * string) -> string.
  (* jwt.sign(payload, process.env.JWT_SECRET, { expiresIn: '1h' }) *)
Variable jwt_verify : string -> option string.
  (* jwt.verify(token, process.env.JWT_SECRET).username; None when it throws *)

Definition register (req : RegisterReq) (db : DB) : AuthResponse * DB :=
  let username := rg_username req in
  let firstName := rg_firstName req in
  let lastName := rg_lastName req in
  let email := rg_email req in
  let password := rg_password req in
  let polLean := rg_polLean req in
  if String.eqb username "" || String.eqb firstName "" || String.eqb lastName "" ||
     String.eqb email "" || String.eqb password "" || String.eqb polLean "" then
    (mkAuthResponse 400 false
       (Some "Please provide all required fields: username, firstName, lastName, email, password, and political leaning")
       None None, db)
  else if negb (valid_polLean polLean) then
    (mkAuthResponse 400 false
       (Some "Invalid political leaning. Must be one of: FL, L, SL, M, SR, R, FR")
       None None, db)
  else
    let hashedPassword := bcrypt_hash password in
    match call_insertUser username firstName lastName email hashedPassword polLean db with
    | (Resolved message, db') =>
        if String.eqb message "User Created" then
          let token := jwt_sign [("username", username)] in
          (mkAuthResponse 201 true (Some "Registration successful") (Some token)
             (Some (mkUserView username firstName lastName email polLean None None)),
           db')
        else
          (mkAuthResponse 500 false (Some "Registration failed") None None, db')
    | (Rejected error_message, db') =>
        if includes "Username in Use" error_message then
          (mkAuthResponse 409 false (Some "Username already in use") None None, db')
        else if includes "Email in Use" error_message then
          (mkAuthResponse 409 false (Some "Email already in use") None None, db')
        else
          (mkAuthResponse 500 false (Some "Registration failed") None None, db')
    end.

Definition login (req : LoginReq) (db : DB) : AuthResponse :=
  let username := lg_username req in
  let password := lg_password req in
  if String.eqb username "" || String.eqb password "" then
    mkAuthResponse 400 false (Some "Please provide username and password") None None
  else
    (* 'SELECT * FROM Users WHERE username = ?' *)
    match filter (fun u => String.eqb (u_username u) username) (db_users db) with
    | [] => mkAuthResponse 401 false (Some "Invalid credentials") None None
    | user :: _ =>
        let validPassword := bcrypt_compare password (u_passHash user) in
        if negb validPassword then
          mkAuthResponse 401 false (Some "Invalid credentials") None None
        else
          let token := jwt_sign [("email", u_email user); ("username", u_username user)] in
          mkAuthResponse 200 true (Some "Login successful") (Some token)
            (Some (mkUserView (u_username user) (u_firstName user) (u_lastName user)
                              (u_email user) (polLean_str (u_polLean user))
                              (Some (u_accVerify user)) None))
    end.

(** [getProfile], for [req.user.username]. *)
Definition getProfile (username : string) (db : DB) : AuthResponse :=
  match filter (fun u => String.eqb (u_username u) username) (db_users db) with
  | [] => mkAuthResponse 404 false (Some "User not found") None None
  | user :: _ =>
      mkAuthResponse 200 true None None
        (Some (mkUserView (u_username user) (u_firstName user) (u_lastName user)
                          (u_email user) (polLean_str (u_polLean user))
                          (Some (u_accVerify user)) (Some (u_dateCreate user))))
  end.

(** [middleware/middleware.js]: the answer that ends the request, or the
    username put in [req.user] before [next()]. *)
Definition auth (token : option string) : Response + string :=
  match token with
  | None => inl (mkResponse 401 false (Some "No token, authorization denied") NoPayload)
  | Some t =>
      if String.eqb t "" then
        inl (mkResponse 401 false (Some "No token, authorization denied") NoPayload)
      else
        match jwt_verify t with
        | None => inl (mkResponse 401 false (Some "Token is not valid") NoPayload)
        | Some username => inr username
        end
  end.

(** [router.post('/likes', auth, feedController.addLike)] *)
Definition route_post_likes (token : option string) (entityType : string) (entityID : Z)
    (w : World) : Response * World :=
  match auth token with
  | inl r => (r, w)
  | inr username => addLike (mkLikeReq username entityType entityID) w
  end.

(** [router.delete('/likes', auth, feedController.removeLike)] *)
Definition route_delete_likes (token : option string) (entityType : string) (entityID : Z)
    (w : World) : Response * World :=
  match auth token with
  | inl r => (r, w)
  | inr username => removeLike (mkLikeReq username entityType entityID) w
  end.

(** [router.post('/comments', auth, feedController.addComment)] *)
Definition route_post_comments (token : option string) (postID : option Z) (body : string)
    (parentCommentID : option Z) (w : World) : Response * World :=
  match auth token with
  | inl r => (r, w)
  | inr username => addComment (mkAddCommentReq username postID body parentCommentID) w
  end.

(** [router.post('/posts', auth, feedController.createPost)] *)
Definition route_post_posts (token : option string) (title body : string)
    (sources : option string) (st : Store) : CreatePostResponse * Store :=
  match auth token with
  | inl r =>
      (mkCreatePostResponse (status r) (success r)
                            (match message r with Some m => m | None => "" end) None, st)
  | inr username => createPost (mkCreatePostReq username title body sources) st
  end.
End Auth.

(** [UNIQUE] on [Users.email]. *)
Definition unique_email (db : DB) : Prop := NoDup (map u_email (db_users db)).

(* ================================================================== *)
(** ** The procedure [getLikes] *)

(** The one row the procedure selects: a [SUM] per leaning, [NULL] when no
    like matches. *)
Record LikeSums : Type := mkLikeSums {
  ls_FR : option Z; ls_R : option Z; ls_SR : option Z; ls_M : option Z;
  ls_SL : option Z; ls_L : option Z; ls_FL : option Z
}.

(** [SUM(CASE WHEN polLean = p THEN 1 ELSE 0 END)] over the selected rows. *)
Definition sum_case (p : PolLean) (rows : list Like) : option Z :=
  match rows with
  | [] => None
  | _ :: _ =>
      Some (fold_left (fun acc l => acc + (if polLean_eqb (l_polLean l) p then 1 else 0))
                      rows 0)
  end.

(** [CALL getLikes(p_entityType, p_entityID)] *)
Definition call_getLikes (entityType : EntityType) (entityID : Z) (db : DB)
    : Outcome LikeSums :=
  match entityType with
  | POST =>
      if negb (existsb (fun p => p_postID p =? entityID) (db_posts db))
      then Rejected "Invalid Post ID"
      else
        let rows := filter (like_on "POST" entityID) (db_likes db) in
        Resolved (mkLikeSums (sum_case FR rows) (sum_case R rows) (sum_case SR rows)
                             (sum_case M rows) (sum_case SL rows) (sum_case L rows)
                             (sum_case FL rows))
  | COMMENT =>
      if negb (existsb (fun c => c_commentID c =? entityID) (db_comments db))
      then Rejected "Invalid Comment ID"
      else
        let rows := filter (like_on "COMMENT" entityID) (db_likes db) in
        Resolved (mkLikeSums (sum_case FR rows) (sum_case R rows) (sum_case SR rows)
                             (sum_case M rows) (sum_case SL rows) (sum_case L rows)
                             (sum_case FL rows))
  end.

(** Instances of the library calls for the examples: the hash prefixes the
    password, the token is the username. *)
Definition demo_hash (password : string) : string := ("$2b$10$" ++ password)%string.
Definition demo_compare (password hash : string) : bool :=
  String.eqb (demo_hash password) hash.
Definition demo_sign (payload : list (string * string)) : string :=
  match find (fun kv => String.eqb (fst kv) "username") payload with
  | Some kv => snd kv
  | None => ""
  end.
Definition demo_verify (token : string) : option string :=
  if String.eqb token "forged" then None else Some token.

Definition seed_store : Store := mkStore seed_db 3.

Definition new_user : RegisterReq :=
  mkRegisterReq "alice" "Alice" "Liddell" "alice@example.com" "rabbit" "SL".

(** The column of a leaning in the row of [getLikes]. *)
Definition ls_get (p : PolLean) (row : LikeSums) : option Z :=
  match p with
  | FL => ls_FL row | L => ls_L row | SL => ls_SL row | M => ls_M row
  | SR => ls_SR row | R => ls_R row | FR => ls_FR row
  end.

(** The request has every field and a leaning of the scale. *)
Definition register_fields_ok (req : RegisterReq) : Prop :=
  rg_username req <> "" /\ rg_firstName req <> "" /\ rg_lastName req <> "" /\
  rg_email req <> "" /\ rg_password req <> "" /\ rg_polLean req <> "" /\
  valid_polLean (rg_polLean req) = true.

(* ================================================================== *)
(** * Proofs *)

(** ** JavaScript objects and the zero-fill *)




(** After the zero-fill, the object lists the seven keys in the order of the
    literal, each with the count of its group (0 for a missing group). *)
Lemma fill_likes_group_by (rows : list Like) :
  fill_likes (group_by_polLean rows) =
  map (fun p => (polLean_str p, count_if (fun l => polLean_eqb (l_polLean l) p) rows))
      all_polLean.
Proof.
  unfold fill_likes, group_by_polLean, all_polLean.
  cbn [flat_map map polLean_str].
  generalize (count_if (fun l => polLean_eqb (l_polLean l) FL) rows); intro n1.
  generalize (count_if (fun l => polLean_eqb (l_polLean l) L) rows); intro n2.
  generalize (count_if (fun l => polLean_eqb (l_polLean l) SL) rows); intro n3.
  generalize (count_if (fun l => polLean_eqb (l_polLean l) M) rows); intro n4.
  generalize (count_if (fun l => polLean_eqb (l_polLean l) SR) rows); intro n5.
  generalize (count_if (fun l => polLean_eqb (l_polLean l) R) rows); intro n6.
  generalize (count_if (fun l => polLean_eqb (l_polLean l) FR) rows); intro n7.
  destruct (Z.eqb_spec n1 0) as [->|_]; destruct (Z.eqb_spec n2 0) as [->|_];
  destruct (Z.eqb_spec n3 0) as [->|_]; destruct (Z.eqb_spec n4 0) as [->|_];
  destruct (Z.eqb_spec n5 0) as [->|_]; destruct (Z.eqb_spec n6 0) as [->|_];
  destruct (Z.eqb_spec n7 0) as [->|_]; reflexivity.
Qed.

Lemma like_distribution_reports (db : DB) (et : string) (id : Z) :
  reports_all_seven db et id (like_distribution db et id).
Proof.
  unfold reports_all_seven, like_distribution, like_count.
  rewrite fill_likes_group_by. reflexivity.
Qed.

(* ================================================================== *)
(** ** Running the handlers *)

Ltac run_db :=
  cbv beta iota delta
    [handler bind ret throw try_catch sent read write
     q_selectUserPolLean q_selectPostID q_selectCommentID q_selectLikeCounts
     q_selectPostsPage q_selectCountPosts q_selectPostByID q_selectCommentsOfPost
     q_selectCommentsPage q_selectCountComments q_selectLastInsertId
     q_deleteLike call_insertLike call_insertComment
     w_db w_log fst snd].

(** A loop whose body only reads: the tables stay as they are and the
    statements of the iterations are logged in order. *)
Lemma for_each_reads {A B} (f : A -> Db B) (g : DB -> A -> B) (s : A -> Sql) :
  (forall a w, f a w = (Resolved (g (w_db w) a), mkWorld (w_db w) (w_log w ++ [s a]))) ->
  forall xs w,
    for_each f xs w =
    (Resolved (map (g (w_db w)) xs), mkWorld (w_db w) (w_log w ++ map s xs)).
Proof.
  intros Hf xs. induction xs as [|x r IH]; intro w; simpl.
  - unfold ret. rewrite app_nil_r. now destruct w.
  - unfold bind at 1. rewrite Hf. unfold bind at 1. rewrite IH. simpl.
    unfold ret. now rewrite <- app_assoc.
Qed.

Lemma post_with_likes_run (post : PostRow * Z) (w : World) :
  post_with_likes post w =
  (Resolved (post_item (w_db w) post),
   mkWorld (w_db w) (w_log w ++ [SelectLikeCounts "POST" (pr_postID (fst post))])).
Proof. reflexivity. Qed.

Lemma comment_with_likes_run (comment : CommentRow) (w : World) :
  comment_with_likes comment w =
  (Resolved (comment_brief (w_db w) comment),
   mkWorld (w_db w) (w_log w ++ [SelectLikeCounts "COMMENT" (cr_commentID comment)])).
Proof. reflexivity. Qed.

Lemma comment_item_run (comment : CommentRow * option Z * Z) (w : World) :
  comment_item comment w =
  (Resolved (comment_item_of (w_db w) comment),
   mkWorld (w_db w)
           (w_log w ++ [SelectLikeCounts "COMMENT" (cr_commentID (fst (fst comment)))])).
Proof. reflexivity. Qed.

(** [getPosts] on any request and world. *)
Lemma getPosts_run (req : GetPostsReq) (w : World) :
  let page := parsed_or (gp_page req) 1 in
  let limit := parsed_or (gp_limit req) 10 in
  let sortBy := string_or (gp_sortBy req) "recent" in
  let offset := (page - 1) * limit in
  let order := post_orderClause sortBy in
  let rows := limit_offset limit offset (posts_ordered (w_db w) order) in
  let total := Z.of_nat (List.length (db_posts (w_db w))) in
  getPosts req w =
  if (limit <? 0) || (offset <? 0) then
    (mkResponse 500 false (Some "Server error while fetching posts") NoPayload,
     mkWorld (w_db w) (w_log w ++ [SelectPostsPage order limit offset]))
  else
    (mkResponse 200 true None
       (PostsPayload page (Math_ceil_div total limit) total limit sortBy
                     (map (post_item (w_db w)) rows)),
     mkWorld (w_db w)
       (((w_log w ++ [SelectPostsPage order limit offset]) ++
         map (fun r => SelectLikeCounts "POST" (pr_postID (fst r))) rows) ++
        [SelectCountPosts])).
Proof.
  intros. unfold getPosts. run_db.
  fold page limit sortBy offset order.
  destruct ((limit <? 0) || (offset <? 0)); [reflexivity|].
  rewrite (for_each_reads _ _ _ post_with_likes_run). reflexivity.
Qed.


(** [getComments] on any request and world. *)
Lemma getComments_run (req : GetCommentsReq) (w : World) :
  let postID := gc_postID req in
  let page := parsed_or (gc_page req) 1 in
  let limit := parsed_or (gc_limit req) 20 in
  let sortBy := string_or (gc_sortBy req) "recent" in
  let parent := gc_parentID req in
  let offset := (page - 1) * limit in
  let order := comment_orderClause sortBy in
  let rows := limit_offset limit offset (comments_ordered (w_db w) postID parent order) in
  let total := count_if (comment_where postID parent) (db_comments (w_db w)) in
  getComments req w =
  match filter (fun i => i =? postID) (map p_postID (db_posts (w_db w))) with
  | [] =>
      (mkResponse 404 false (Some "Post not found") NoPayload,
       mkWorld (w_db w) (w_log w ++ [SelectPostID postID]))
  | _ :: _ =>
      if (limit <? 0) || (offset <? 0) then
        (mkResponse 500 false (Some "Server error while fetching comments") NoPayload,
         mkWorld (w_db w)
           ((w_log w ++ [SelectPostID postID]) ++
            [SelectCommentsPage postID parent order limit offset]))
      else
        (mkResponse 200 true None
           (CommentsPayload page (Math_ceil_div total limit) total limit sortBy parent
                            (map (comment_item_of (w_db w)) rows)),
         mkWorld (w_db w)
           ((((w_log w ++ [SelectPostID postID]) ++
              [SelectCommentsPage postID parent order limit offset]) ++
             map (fun r => SelectLikeCounts "COMMENT" (cr_commentID (fst (fst r)))) rows) ++
            [SelectCountComments postID parent]))
  end.
Proof.
  intros. unfold getComments. run_db.
  fold postID page limit sortBy parent offset order.
  destruct (filter _ _); [reflexivity|].
  destruct ((limit <? 0) || (offset <? 0)); [reflexivity|].
  rewrite (for_each_reads _ _ _ comment_item_run). reflexivity.
Qed.


(** [getPostById] on any id and world. *)
Lemma getPostById_run (postID : Z) (w : World) :
  let db := w_db w in
  let comments :=
    map comment_row
        (sql_order_by (fun cu => [(ASC, c_datePosted (fst cu))])
           (filter (fun cu => col_is (c_postID (fst cu)) postID)
                   (join_users c_username (db_comments db) (db_users db)))) in
  getPostById postID w =
  match map post_row
            (filter (fun pu => p_postID (fst pu) =? postID)
                    (join_users p_username (db_posts db) (db_users db))) with
  | [] =>
      (mkResponse 404 false (Some "Post not found") NoPayload,
       mkWorld db (w_log w ++ [SelectPostByID postID]))
  | post :: _ =>
      (mkResponse 200 true None
         (PostPayload (mkPostDetail post (like_distribution db "POST" postID)
                                    (map (comment_brief db) comments))),
       mkWorld db
         ((((w_log w ++ [SelectPostByID postID]) ++ [SelectLikeCounts "POST" postID]) ++
           [SelectCommentsOfPost postID]) ++
          map (fun c => SelectLikeCounts "COMMENT" (cr_commentID c)) comments))
  end.
Proof.
  intros. unfold getPostById. run_db. fold db.
  destruct (map post_row _); [reflexivity|].
  rewrite (for_each_reads _ _ _ comment_with_likes_run). reflexivity.
Qed.

(** [removeLike] on any request and world. *)
Lemma removeLike_run (req : LikeReq) (w : World) :
  let u := lk_username req in
  let et := lk_entityType req in
  let id := lk_entityID req in
  let db := w_db w in
  let db' := delete_like u et id db in
  let w' := mkWorld db' (w_log w ++ [DeleteLike u et id]) in
  removeLike req w =
  if negb (valid_entityType et) then
    (mkResponse 400 false (Some "Entity type must be either POST or COMMENT") NoPayload, w)
  else if count_if (like_of u et id) (db_likes db) =? 0 then
    (mkResponse 404 false (Some "Like not found") NoPayload, w')
  else
    (mkResponse 200 true (Some "Like removed successfully")
       (LikesPayload (like_distribution db' et id)),
     mkWorld db' ((w_log w ++ [DeleteLike u et id]) ++ [SelectLikeCounts et id])).
Proof.
  intros. unfold removeLike. run_db. fold u et id db.
  destruct (negb (valid_entityType et)); [reflexivity|].
  destruct (count_if _ _ =? 0); reflexivity.
Qed.

(** [addLike] on any request and world. *)
Lemma addLike_run (req : LikeReq) (w : World) :
  let u := lk_username req in
  let et := lk_entityType req in
  let id := lk_entityID req in
  let db := w_db w in
  let log1 := w_log w ++ [SelectUserPolLean u] in
  let log2 := log1 ++ [if String.eqb et "POST" then SelectPostID id else SelectCommentID id] in
  let found :=
    if String.eqb et "POST"
    then filter (fun i => i =? id) (map p_postID (db_posts db))
    else filter (fun i => i =? id) (map c_commentID (db_comments db)) in
  addLike req w =
  match map u_polLean (filter (fun x => String.eqb (u_username x) u) (db_users db)) with
  | [] => (mkResponse 404 false (Some "User not found") NoPayload, mkWorld db log1)
  | userPolLean :: _ =>
      let log3 := log2 ++ [CallInsertLike u et id userPolLean] in
      if negb (valid_entityType et) then
        (mkResponse 400 false (Some "Entity type must be either POST or COMMENT") NoPayload,
         mkWorld db log1)
      else if negb (0 <? Z.of_nat (List.length found)) then
        (mkResponse 404 false (Some (toLowerCase et ++ " not found")%string) NoPayload,
         mkWorld db log2)
      else
        match entityType_of_string et with
        | None =>
            (mkResponse 500 false (Some "Server error while adding like") NoPayload,
             mkWorld db log3)
        | Some t =>
            if existsb (like_of u et id) (db_likes db) then
              (mkResponse 409 false (Some "You have already liked this item") NoPayload,
               mkWorld db log3)
            else if negb (user_known db u) then
              (mkResponse 500 false (Some "Server error while adding like") NoPayload,
               mkWorld db log3)
            else
              let db' := insert_like u t id userPolLean db in
              (mkResponse 201 true (Some "Like added successfully")
                 (LikesPayload (like_distribution db' et id)),
               mkWorld db' (log3 ++ [SelectLikeCounts et id]))
        end
  end.
Proof.
  destruct w as [d lg], req as [u et id]. cbv zeta.
  unfold addLike. run_db. cbn [lk_username lk_entityType lk_entityID].
  destruct (map u_polLean _) as [|userPolLean rest]; [reflexivity|].
  destruct (negb (valid_entityType et)); [reflexivity|].
  destruct (String.eqb et "POST"); run_db;
    (destruct (negb (0 <? Z.of_nat (List.length _))); [reflexivity|]);
    (destruct (entityType_of_string et); [|reflexivity]);
    (destruct (existsb _ _); [reflexivity|]);
    (destruct (negb (user_known d u)); reflexivity).
Qed.


(* ================================================================== *)
(** ** Like distributions *)




(** The scalars [getPosts] derives from a distribution. *)
Lemma post_item_scalars (db : DB) (post : PostRow * Z) :
  let it := post_item db post in
  exists fl l sl m sr r fr : Z,
    pi_likes it = [("FL", fl); ("L", l); ("SL", sl); ("M", m); ("SR", sr); ("R", r); ("FR", fr)] /\
    pi_rightLikes it = Some (fr + r + sr) /\
    pi_leftLikes it = Some (fl + l + sl) /\
    pi_moderateLikes it = Some m /\
    pi_totalLikes it = Some (fl + l + sl + m + sr + r + fr) /\
    pi_polarizationScore it = Some (Z.abs ((fr + r + sr) - (fl + l + sl))) /\
    js_add (js_add (pi_rightLikes it) (pi_leftLikes it)) (pi_moderateLikes it) =
    pi_totalLikes it.
Proof.
  intro it. subst it. unfold post_item.
  pose proof (like_distribution_reports db "POST" (pr_postID (fst post))) as H.
  unfold reports_all_seven in H. rewrite H. clear H.
  set (id := pr_postID (fst post)).
  exists (like_count db "POST" id FL), (like_count db "POST" id L),
         (like_count db "POST" id SL), (like_count db "POST" id M),
         (like_count db "POST" id SR), (like_count db "POST" id R),
         (like_count db "POST" id FR).
  cbn. repeat apply conj; try reflexivity; f_equal; lia.
Qed.

(** C2. For every post returned by the post listing, rightLikes = FR+R+SR,
    leftLikes = FL+L+SL, moderateLikes = M, totalLikes is the sum of the
    seven bucket counts and polarizationScore = |rightLikes - leftLikes|;
    hence rightLikes + leftLikes + moderateLikes = totalLikes. *)
Theorem listed_posts_derived_scalars (req : GetPostsReq) (w : World) :
  Forall
    (fun it =>
       exists fl l sl m sr r fr : Z,
         pi_likes it =
           [("FL", fl); ("L", l); ("SL", sl); ("M", m); ("SR", sr); ("R", r); ("FR", fr)] /\
         pi_rightLikes it = Some (fr + r + sr) /\
         pi_leftLikes it = Some (fl + l + sl) /\
         pi_moderateLikes it = Some m /\
         pi_totalLikes it = Some (fl + l + sl + m + sr + r + fr) /\
         pi_polarizationScore it = Some (Z.abs ((fr + r + sr) - (fl + l + sl))) /\
         js_add (js_add (pi_rightLikes it) (pi_leftLikes it)) (pi_moderateLikes it) =
         pi_totalLikes it)
    (returned_posts (fst (getPosts req w))).
Proof.
  rewrite getPosts_run. cbv zeta.
  destruct (_ || _); cbn [fst returned_posts payload]; [apply Forall_nil|].
  apply Forall_forall. intros it Hit. apply in_map_iff in Hit as [row [<- _]].
  apply post_item_scalars.
Qed.

(* ================================================================== *)
(** ** Sort policies *)






(* ================================================================== *)
(** ** Ordering, joins and pages *)

Lemma sql_insert_perm {A} (key : A -> list (Dir * Z)) (x : A) (l : list A) :
  Permutation (x :: l) (sql_insert key x l).
Proof.
  induction l as [|y r IH]; simpl; [apply Permutation_refl|].
  destruct (sql_precedes (key x) (key y)); [apply Permutation_refl|].
  eapply perm_trans; [apply perm_swap|]. now apply perm_skip.
Qed.


Lemma filter_none {A} (f : A -> bool) (l : list A) :
  (forall x, In x l -> f x = false) -> filter f l = [].
Proof.
  induction l as [|x r IH]; simpl; intro H; [reflexivity|].
  rewrite (H x (or_introl eq_refl)). apply IH. intros y Hy. apply H. now right.
Qed.




Lemma limit_offset_map {A B} (f : A -> B) (limit offset : Z) (l : list A) :
  map f (limit_offset limit offset l) = limit_offset limit offset (map f l).
Proof. unfold limit_offset. now rewrite skipn_map, firstn_map. Qed.












Lemma NoDup_map_filter {A B} (f : A -> B) (g : A -> bool) (l : list A) :
  NoDup (map f l) -> NoDup (map f (filter g l)).
Proof.
  induction l as [|x r IH]; simpl; intro ND; [apply NoDup_nil|].
  inversion ND as [|? ? Hnotin ND']; subst.
  destruct (g x); simpl; [|now apply IH].
  apply NoDup_cons; [|now apply IH].
  intro Hin. apply Hnotin. apply in_map_iff in Hin as [y [E Hy]].
  apply filter_In in Hy as [Hy _]. rewrite <- E. now apply in_map.
Qed.








(* ================================================================== *)
(** ** Adding and removing likes *)

Lemma entityType_of_string_str (s : string) (t : EntityType) :
  entityType_of_string s = Some t -> entityType_str t = s.
Proof.
  unfold entityType_of_string.
  destruct (String.eqb_spec s "POST") as [->|_]; [intro H; now injection H as <-|].
  destruct (String.eqb_spec s "COMMENT") as [->|_]; [intro H; now injection H as <-|].
  intro H. discriminate H.
Qed.

Lemma valid_entityType_of_string (s : string) :
  valid_entityType s = true -> exists t, entityType_of_string s = Some t.
Proof.
  unfold valid_entityType, entityType_of_string.
  destruct (String.eqb s "POST"); [now exists POST|].
  destruct (String.eqb s "COMMENT"); [now exists COMMENT|].
  intro H. discriminate H.
Qed.

Lemma entityType_str_valid (t : EntityType) : valid_entityType (entityType_str t) = true.
Proof. now destruct t. Qed.

Lemma existsb_false_filter {A} (f : A -> bool) (l : list A) :
  existsb f l = false ->
  filter f l = [] /\ filter (fun x => negb (f x)) l = l.
Proof.
  induction l as [|x r IH]; simpl; intro H; [now split|].
  apply orb_false_iff in H as [Hx Hr]. rewrite Hx. simpl.
  destruct (IH Hr) as [-> ->]. now split.
Qed.

Lemma user_found (db : DB) (u : string) :
  In u (map u_username (db_users db)) ->
  exists p rest,
    map u_polLean (filter (fun x => String.eqb (u_username x) u) (db_users db)) = p :: rest.
Proof.
  intro Hin. apply in_map_iff in Hin as [x [Hx Hin]].
  destruct (map u_polLean (filter (fun x => String.eqb (u_username x) u) (db_users db)))
    as [|p rest] eqn:E; [|now exists p, rest].
  exfalso. apply map_eq_nil in E.
  assert (In x []) as H; [|exact H].
  rewrite <- E. apply filter_In. split; [exact Hin|]. rewrite Hx. apply String.eqb_refl.
Qed.

Lemma user_not_found (db : DB) (u : string) :
  ~ In u (map u_username (db_users db)) ->
  map u_polLean (filter (fun x => String.eqb (u_username x) u) (db_users db)) = [].
Proof.
  intro Hnot. rewrite filter_none; [reflexivity|].
  intros x Hx. destruct (String.eqb_spec (u_username x) u) as [E|_]; [|reflexivity].
  exfalso. apply Hnot. rewrite <- E. now apply in_map.
Qed.

Lemma id_found (ids : list Z) (id : Z) :
  In id ids -> (0 <? Z.of_nat (List.length (filter (fun i => i =? id) ids))) = true.
Proof.
  intro Hin. apply Z.ltb_lt.
  destruct (filter (fun i => i =? id) ids) as [|i rest] eqn:E; [|simpl; lia].
  exfalso. assert (In id []) as H; [|exact H].
  rewrite <- E. apply filter_In. split; [exact Hin | apply Z.eqb_refl].
Qed.

Lemma liked_by_existsb (db : DB) (u et : string) (id : Z) :
  liked_by db u et id -> existsb (like_of u et id) (db_likes db) = true.
Proof.
  intros [l [Hin [Hu [Het Hid]]]]. apply existsb_exists. exists l. split; [exact Hin|].
  unfold like_of, like_on. rewrite Hu, Het, Hid.
  now rewrite !String.eqb_refl, Z.eqb_refl.
Qed.

Lemma existsb_liked_by (db : DB) (u et : string) (id : Z) :
  existsb (like_of u et id) (db_likes db) = true -> liked_by db u et id.
Proof.
  intro H. apply existsb_exists in H as [l [Hin Hl]]. exists l.
  unfold like_of, like_on in Hl.
  apply andb_true_iff in Hl as [Hu Hl]. apply andb_true_iff in Hl as [Het Hid].
  apply String.eqb_eq in Hu, Het. apply Z.eqb_eq in Hid. now repeat split.
Qed.

(** C5. For a user and an entity in the Liked state (the user and the
    entity exist and a like row for the triple is stored), a second add for
    the triple fails with AlreadyLiked (409 Conflict), returns no
    distribution, and leaves the database, hence the stored like
    distribution, exactly as it was. *)
Theorem second_like_conflicts (req : LikeReq) (w : World) :
  In (lk_username req) (map u_username (db_users (w_db w))) ->
  entity_exists (w_db w) (lk_entityType req) (lk_entityID req) ->
  liked_by (w_db w) (lk_username req) (lk_entityType req) (lk_entityID req) ->
  let r := fst (addLike req w) in
  let w' := snd (addLike req w) in
  status r = 409 /\
  success r = false /\
  message r = Some "You have already liked this item" /\
  returned_likes r = None /\
  w_db w' = w_db w /\
  like_distribution (w_db w') (lk_entityType req) (lk_entityID req) =
  like_distribution (w_db w) (lk_entityType req) (lk_entityID req).
Proof.
  intros Huser Hent Hliked r w'. subst r w'. rewrite addLike_run. cbv zeta.
  destruct (user_found _ _ Huser) as [p [rest ->]].
  rewrite (liked_by_existsb _ _ _ _ Hliked).
  destruct Hent as [[-> Hin]|[-> Hin]];
    change (String.eqb "POST" "POST") with true;
    change (String.eqb "COMMENT" "POST") with false;
    cbv iota; rewrite (id_found _ _ Hin); cbn; repeat apply conj; reflexivity.
Qed.

(** The like row a successful add stores. *)
Lemma addLike_created (req : LikeReq) (w : World) :
  status (fst (addLike req w)) = 201 ->
  exists t p,
    entityType_of_string (lk_entityType req) = Some t /\
    existsb (like_of (lk_username req) (lk_entityType req) (lk_entityID req))
            (db_likes (w_db w)) = false /\
    snd (addLike req w) =
    mkWorld (insert_like (lk_username req) t (lk_entityID req) p (w_db w))
            (w_log (snd (addLike req w))).
Proof.
  rewrite addLike_run. cbv zeta.
  destruct (map u_polLean _) as [|p rest]; [intro H; discriminate H|].
  destruct (negb (valid_entityType _)); [intro H; discriminate H|].
  destruct (negb (0 <? _)); [intro H; discriminate H|].
  destruct (entityType_of_string _) as [t|]; [|intro H; discriminate H].
  destruct (existsb _ _); [intro H; discriminate H|].
  destruct (negb (user_known _ _)); [intro H; discriminate H|].
  intros _. exists t, p. repeat split.
Qed.

(** C6. A successful add followed at once by the remove of the same triple
    brings the [Likes] table, and with it the like distribution of every
    entity, back to what it was before the add; the remove answers with
    the distribution the entity had before the add. *)
Theorem remove_after_add_restores (req : LikeReq) (w : World) :
  status (fst (addLike req w)) = 201 ->
  let w1 := snd (addLike req w) in
  let r2 := fst (removeLike req w1) in
  let w2 := snd (removeLike req w1) in
  (exists row,
     db_likes (w_db w1) = db_likes (w_db w) ++ [row] /\
     like_of (lk_username req) (lk_entityType req) (lk_entityID req) row = true) /\
  status r2 = 200 /\
  returned_likes r2 =
    Some (like_distribution (w_db w) (lk_entityType req) (lk_entityID req)) /\
  db_likes (w_db w2) = db_likes (w_db w) /\
  (forall et id, like_distribution (w_db w2) et id = like_distribution (w_db w) et id) /\
  db_users (w_db w2) = db_users (w_db w) /\
  db_posts (w_db w2) = db_posts (w_db w) /\
  db_comments (w_db w2) = db_comments (w_db w).
Proof.
  intros Hadd w1 r2 w2.
  destruct (addLike_created req w Hadd) as [t [p [Ht [Hnone Hw1]]]].
  fold w1 in Hw1.
  set (u := lk_username req) in *. set (et := lk_entityType req) in *.
  set (id := lk_entityID req) in *.
  set (row := mkLike (db_nextLikeID (w_db w)) u t id p (db_now (w_db w))).
  assert (Hrow : like_of u et id row = true).
  { unfold like_of, like_on. cbn [row l_username l_entityType l_entityID].
    rewrite (entityType_of_string_str et t Ht).
    now rewrite !String.eqb_refl, Z.eqb_refl. }
  assert (Hlikes1 : db_likes (w_db w1) = db_likes (w_db w) ++ [row]).
  { rewrite Hw1. reflexivity. }
  destruct (existsb_false_filter _ _ Hnone) as [Hold Hkeep].
  assert (Hvalid : negb (valid_entityType et) = false).
  { rewrite <- (entityType_of_string_str et t Ht). now rewrite entityType_str_valid. }
  assert (Hcount : (count_if (like_of u et id) (db_likes (w_db w1)) =? 0) = false).
  { unfold count_if. rewrite Hlikes1, filter_app, Hold. cbn [filter app]. now rewrite Hrow. }
  assert (Hdel : db_likes (delete_like u et id (w_db w1)) = db_likes (w_db w)).
  { unfold delete_like. cbn [db_likes]. rewrite Hlikes1, filter_app, Hkeep.
    cbn [filter]. rewrite Hrow. cbn. apply app_nil_r. }
  assert (Hdist : forall et' id',
             like_distribution (delete_like u et id (w_db w1)) et' id' =
             like_distribution (w_db w) et' id').
  { intros et' id'. unfold like_distribution. now rewrite Hdel. }
  subst r2 w2. rewrite removeLike_run. cbv zeta. fold u et id.
  rewrite Hvalid, Hcount. cbn [fst snd status returned_likes payload w_db].
  repeat apply conj.
  - now exists row.
  - reflexivity.
  - now rewrite Hdist.
  - exact Hdel.
  - exact Hdist.
  - rewrite Hw1. reflexivity.
  - rewrite Hw1. reflexivity.
  - rewrite Hw1. reflexivity.
Qed.

(** C7, as stated, does not hold: [addLike] looks the user up before it
    checks the entity type. On the seed data, the request of "johndoe" for
    entity type "PAGE" has sent the user lookup when it is answered 400, and
    the same request from an unknown user is answered 404. *)
Lemma addLike_invalid_type_after_lookup :
  ~ (forall (req : LikeReq) (w : World),
       valid_entityType (lk_entityType req) = false ->
       status (fst (addLike req w)) = 400 /\
       w_log (snd (addLike req w)) = w_log w).
Proof.
  intro H.
  destruct (H (mkLikeReq "johndoe" "PAGE" 1) seed eq_refl) as [_ Hlog].
  vm_compute in Hlog. discriminate Hlog.
Qed.

(** C7, amended. For every add-like request whose entityType is neither
    POST nor COMMENT, exactly one statement is sent, the read-only lookup
    of the user's leaning, and the database is left unchanged; when the
    user exists the request fails with the invalid-entity-type error (400)
    before any other storage call, and when the user does not exist it
    fails with UserNotFound (404). *)
Theorem addLike_invalid_type (req : LikeReq) (w : World) :
  valid_entityType (lk_entityType req) = false ->
  let r := fst (addLike req w) in
  let w' := snd (addLike req w) in
  w_db w' = w_db w /\
  w_log w' = w_log w ++ [SelectUserPolLean (lk_username req)] /\
  returned_likes r = None /\
  (In (lk_username req) (map u_username (db_users (w_db w))) ->
   status r = 400 /\
   message r = Some "Entity type must be either POST or COMMENT") /\
  (~ In (lk_username req) (map u_username (db_users (w_db w))) ->
   status r = 404 /\ message r = Some "User not found").
Proof.
  intros Hinvalid r w'. subst r w'. rewrite addLike_run. cbv zeta. rewrite Hinvalid.
  cbn [negb].
  repeat apply conj.
  - destruct (map u_polLean _); reflexivity.
  - destruct (map u_polLean _); reflexivity.
  - destruct (map u_polLean _); reflexivity.
  - intro Hin. destruct (user_found _ _ Hin) as [p [rest ->]]. now split.
  - intro Hnot. rewrite (user_not_found _ _ Hnot). now split.
Qed.

(* ================================================================== *)
(** ** Listing the comments of a post that does not exist *)

(** C8. A comment listing whose postID names no post fails with
    PostNotFound (404), and the existence check is the only statement
    sent: no comment query, ordering, count or like aggregation runs, and
    the database is as before. *)
Theorem getComments_post_not_found (req : GetCommentsReq) (w : World) :
  ~ In (gc_postID req) (map p_postID (db_posts (w_db w))) ->
  fst (getComments req w) = mkResponse 404 false (Some "Post not found") NoPayload /\
  snd (getComments req w) = mkWorld (w_db w) (w_log w ++ [SelectPostID (gc_postID req)]).
Proof.
  intro Hnot. rewrite getComments_run. cbv zeta.
  rewrite filter_none; [now split|].
  intros i Hi. destruct (Z.eqb_spec i (gc_postID req)) as [->|_]; [|reflexivity].
  now destruct Hnot.
Qed.

(* ================================================================== *)
(** ** The parents of a comment *)



(* ================================================================== *)
(** ** Removing a like *)

Lemma entityType_str_inj (a b : EntityType) : entityType_str a = entityType_str b -> a = b.
Proof. destruct a, b; simpl; intro H; try reflexivity; discriminate H. Qed.

Lemma like_of_key (u et : string) (id : Z) (a b : Like) :
  like_of u et id a = true -> like_of u et id b = true -> like_key a = like_key b.
Proof.
  unfold like_of, like_on, like_key. intros Ha Hb.
  apply andb_true_iff in Ha as [Hu Ha]. apply andb_true_iff in Ha as [Het Hid].
  apply andb_true_iff in Hb as [Hu' Hb]. apply andb_true_iff in Hb as [Het' Hid'].
  apply String.eqb_eq in Hu, Het, Hu', Het'. apply Z.eqb_eq in Hid, Hid'.
  rewrite Hu, Hu', Hid, Hid'.
  now rewrite (entityType_str_inj (l_entityType a) (l_entityType b)) by congruence.
Qed.

(** Under the unique key, the [DELETE] of a triple that is present removes
    one row and keeps the others in place. *)
Lemma delete_single_row (u et : string) (id : Z) (likes : list Like) :
  NoDup (map like_key likes) ->
  existsb (like_of u et id) likes = true ->
  exists before row after,
    likes = before ++ row :: after /\
    like_of u et id row = true /\
    filter (like_of u et id) likes = [row] /\
    filter (fun l => negb (like_of u et id l)) likes = before ++ after.
Proof.
  induction likes as [|a r IH]; simpl; intros ND Hex; [discriminate Hex|].
  inversion ND as [|? ? Hnotin ND']; subst.
  destruct (like_of u et id a) eqn:Ha.
  - exists [], a, r. cbn [app negb].
    assert (Hrest : existsb (like_of u et id) r = false).
    { destruct (existsb (like_of u et id) r) eqn:E; [|reflexivity].
      apply existsb_exists in E as [b [Hb Hlb]]. exfalso. apply Hnotin.
      rewrite (like_of_key u et id a b Ha Hlb). now apply in_map. }
    destruct (existsb_false_filter _ _ Hrest) as [-> ->]. now repeat split.
  - simpl in Hex. destruct (IH ND' Hex) as [before [row [after [E [Hrow [Hf Hn]]]]]].
    exists (a :: before), row, after. cbn [negb app]. rewrite Hf, Hn, E at 1.
    now repeat split.
Qed.

Lemma count_if_existsb {A} (f : A -> bool) (l : list A) :
  (count_if f l =? 0) = negb (existsb f l).
Proof.
  unfold count_if. induction l as [|x r IH]; simpl; [reflexivity|].
  destruct (f x); simpl; [reflexivity | exact IH].
Qed.

(** C10. A remove-like request whose entityType is neither POST nor COMMENT
    fails with the invalid-entity-type error (400) before any statement is
    sent, so the store is untouched; a valid request that matches no like
    row fails with LikeNotFound (404) and leaves the database as it was;
    and a request that succeeds changes nothing but the [Likes] table, from
    which, under the unique key, it deletes the one matching row, every
    other row staying in place. *)
Theorem removeLike_only_the_matching_row (req : LikeReq) (w : World) :
  let u := lk_username req in
  let et := lk_entityType req in
  let id := lk_entityID req in
  let r := fst (removeLike req w) in
  let w' := snd (removeLike req w) in
  (valid_entityType et = false ->
   status r = 400 /\
   message r = Some "Entity type must be either POST or COMMENT" /\
   w' = w)
  /\
  (valid_entityType et = true -> ~ liked_by (w_db w) u et id ->
   status r = 404 /\ message r = Some "Like not found" /\
   w_db w' = w_db w /\ w_log w' = w_log w ++ [DeleteLike u et id])
  /\
  (valid_entityType et = true -> liked_by (w_db w) u et id ->
   unique_like (w_db w) ->
   status r = 200 /\
   exists before row after,
     db_likes (w_db w) = before ++ row :: after /\
     like_of u et id row = true /\
     db_likes (w_db w') = before ++ after)
  /\
  (db_users (w_db w') = db_users (w_db w) /\
   db_posts (w_db w') = db_posts (w_db w) /\
   db_comments (w_db w') = db_comments (w_db w) /\
   (forall l, In l (db_likes (w_db w')) -> In l (db_likes (w_db w))) /\
   (forall l, In l (db_likes (w_db w)) -> like_of u et id l = false ->
              In l (db_likes (w_db w')))).
Proof.
  intros u et id r w'. subst r w'. rewrite removeLike_run. cbv zeta. fold u et id.
  rewrite count_if_existsb.
  repeat apply conj.
  - intros ->. now repeat split.
  - intros -> Hnot. cbn [negb].
    destruct (existsb (like_of u et id) (db_likes (w_db w))) eqn:E.
    { exfalso. apply Hnot. now apply existsb_liked_by. }
    cbn [negb fst snd status message w_db w_log].
    repeat split. unfold delete_like.
    destruct (existsb_false_filter _ _ E) as [_ ->]. now destruct (w_db w).
  - intros -> Hliked Huniq. cbn [negb].
    pose proof (liked_by_existsb _ _ _ _ Hliked) as E. rewrite E.
    cbn [negb fst snd status w_db]. split; [reflexivity|].
    destruct (delete_single_row u et id _ Huniq E)
      as [before [row [after [Hsplit [Hrow [_ Hdel]]]]]].
    exists before, row, after. repeat split; try assumption.
  - destruct (negb (valid_entityType et)); [reflexivity|].
    destruct (negb (existsb _ _)); reflexivity.
  - destruct (negb (valid_entityType et)); [reflexivity|].
    destruct (negb (existsb _ _)); reflexivity.
  - destruct (negb (valid_entityType et)); [reflexivity|].
    destruct (negb (existsb _ _)); reflexivity.
  - intros l. destruct (negb (valid_entityType et)); [auto|].
    destruct (negb (existsb _ _)); cbn [snd w_db delete_like db_likes];
      intro Hl; now apply filter_In in Hl as [Hl _].
  - intros l Hl Hno. destruct (negb (valid_entityType et)); [exact Hl|].
    destruct (negb (existsb _ _)); cbn [snd w_db delete_like db_likes];
      apply filter_In; (split; [exact Hl | now rewrite Hno]).
Qed.

(* ================================================================== *)
(** * The theorems at work on the seed data *)

Ltac nodup_literal :=
  repeat (apply NoDup_cons; [simpl; intuition discriminate|]); apply NoDup_nil.

Lemma liked_pk_Users : pk_Users liked_db.
Proof. unfold pk_Users. simpl. nodup_literal. Defined.



Lemma liked_unique_like : unique_like liked_db.
Proof. unfold unique_like. simpl. nodup_literal. Defined.




Lemma second_like_witness :
  liked_by liked_db "janedoe" "POST" 1 /\
  status (fst (addLike (mkLikeReq "janedoe" "POST" 1) liked)) = 409 /\
  w_db (snd (addLike (mkLikeReq "janedoe" "POST" 1) liked)) = liked_db.
Proof.
  assert (Hu : In "janedoe" (map u_username (db_users liked_db))) by (simpl; tauto).
  assert (He : entity_exists liked_db "POST" 1) by (left; split; [reflexivity | simpl; tauto]).
  assert (Hl : liked_by liked_db "janedoe" "POST" 1).
  { exists (mkLike 1 "janedoe" POST 1 L 1500). simpl. tauto. }
  destruct (second_like_conflicts (mkLikeReq "janedoe" "POST" 1) liked Hu He Hl)
    as (Hs & _ & _ & _ & Hdb & _).
  repeat apply conj; assumption.
Defined.

Lemma remove_after_add_witness :
  status (fst (addLike (mkLikeReq "johndoe" "POST" 1) liked)) = 201 /\
  db_likes (w_db (snd (removeLike (mkLikeReq "johndoe" "POST" 1)
                                  (snd (addLike (mkLikeReq "johndoe" "POST" 1) liked))))) =
  db_likes liked_db.
Proof.
  assert (Hadd : status (fst (addLike (mkLikeReq "johndoe" "POST" 1) liked)) = 201)
    by reflexivity.
  destruct (remove_after_add_restores (mkLikeReq "johndoe" "POST" 1) liked Hadd)
    as (_ & _ & _ & Hlikes & _).
  split; assumption.
Defined.

Lemma addLike_invalid_type_witness :
  valid_entityType "PAGE" = false /\
  status (fst (addLike (mkLikeReq "johndoe" "PAGE" 1) seed)) = 400 /\
  status (fst (addLike (mkLikeReq "nobody" "PAGE" 1) seed)) = 404 /\
  w_log (snd (addLike (mkLikeReq "johndoe" "PAGE" 1) seed)) = [SelectUserPolLean "johndoe"].
Proof.
  assert (Hv : valid_entityType "PAGE" = false) by reflexivity.
  destruct (addLike_invalid_type (mkLikeReq "johndoe" "PAGE" 1) seed Hv)
    as (_ & Hlog & _ & Hknown & _).
  destruct (addLike_invalid_type (mkLikeReq "nobody" "PAGE" 1) seed Hv)
    as (_ & _ & _ & _ & Hunknown).
  repeat apply conj.
  - exact Hv.
  - apply Hknown. simpl. tauto.
  - apply Hunknown. simpl. intuition discriminate.
  - exact Hlog.
Defined.

Lemma getComments_post_not_found_witness :
  ~ In 9 (map p_postID (db_posts seed_db)) /\
  status (fst (getComments (mkGetCommentsReq 9 None None None None) seed)) = 404 /\
  w_log (snd (getComments (mkGetCommentsReq 9 None None None None) seed)) = [SelectPostID 9].
Proof.
  assert (Hnot : ~ In 9 (map p_postID (db_posts seed_db)))
    by (simpl; intuition discriminate).
  destruct (getComments_post_not_found (mkGetCommentsReq 9 None None None None) seed Hnot)
    as [Hr Hw].
  repeat apply conj.
  - exact Hnot.
  - now rewrite Hr.
  - now rewrite Hw.
Defined.


Lemma removeLike_witness :
  (valid_entityType "PAGE" = false /\
   snd (removeLike (mkLikeReq "janedoe" "PAGE" 1) liked) = liked) /\
  (~ liked_by liked_db "johndoe" "POST" 1 /\
   status (fst (removeLike (mkLikeReq "johndoe" "POST" 1) liked)) = 404 /\
   w_db (snd (removeLike (mkLikeReq "johndoe" "POST" 1) liked)) = liked_db) /\
  (liked_by liked_db "janedoe" "POST" 1 /\ unique_like liked_db /\
   status (fst (removeLike (mkLikeReq "janedoe" "POST" 1) liked)) = 200).
Proof.
  destruct (removeLike_only_the_matching_row (mkLikeReq "janedoe" "PAGE" 1) liked)
    as (Hinvalid & _).
  destruct (removeLike_only_the_matching_row (mkLikeReq "johndoe" "POST" 1) liked)
    as (_ & Hmissing & _).
  destruct (removeLike_only_the_matching_row (mkLikeReq "janedoe" "POST" 1) liked)
    as (_ & _ & Hhit & _).
  assert (Hno : ~ liked_by liked_db "johndoe" "POST" 1).
  { intros [l [Hin [Hu _]]]. simpl in Hin.
    intuition (subst; discriminate). }
  assert (Hl : liked_by liked_db "janedoe" "POST" 1).
  { exists (mkLike 1 "janedoe" POST 1 L 1500). simpl. tauto. }
  repeat apply conj.
  - reflexivity.
  - now destruct (Hinvalid eq_refl) as (_ & _ & Hw).
  - exact Hno.
  - now destruct (Hmissing eq_refl Hno) as (Hs & _).
  - now destruct (Hmissing eq_refl Hno) as (_ & _ & Hdb & _).
  - exact Hl.
  - exact liked_unique_like.
  - now destruct (Hhit eq_refl Hl liked_unique_like) as (Hs & _).
Defined.

(* ================================================================== *)
(** * Scenarios *)

(** A first like, by a user of leaning L, on post 2 which has none. *)
Example first_like_on_post :
  returned_likes (fst (addLike (mkLikeReq "janedoe" "POST" 2) seed)) =
  Some [("FL", 0); ("L", 1); ("SL", 0); ("M", 0); ("SR", 0); ("R", 0); ("FR", 0)].
Proof. reflexivity. Qed.

(** The scalars of the two posts, most recent first: post 2 without likes,
    post 1 with likes of leanings L, FR and FL. *)
Example listed_posts_scalars :
  map (fun it => (pr_postID (pi_row it), pi_totalLikes it, pi_rightLikes it,
                  pi_leftLikes it, pi_moderateLikes it, pi_polarizationScore it))
      (returned_posts (fst (getPosts (mkGetPostsReq None None None) liked))) =
  [ (2, Some 0, Some 0, Some 0, Some 0, Some 0);
    (1, Some 3, Some 1, Some 2, Some 0, Some 1) ].
Proof. reflexivity. Qed.

(** Under "balanced", post 2 (score 0) stands before post 1 (score 1);
    under "left", post 1 (two left likes) stands first. *)
Example balanced_and_left_orders :
  map (fun it => pr_postID (pi_row it))
      (returned_posts (fst (getPosts (mkGetPostsReq None None (Some "balanced")) liked))) =
    [2; 1] /\
  map (fun it => pr_postID (pi_row it))
      (returned_posts (fst (getPosts (mkGetPostsReq None None (Some "left")) liked))) =
    [1; 2].
Proof. split; reflexivity. Qed.

(** The three top-level comments of post 1, oldest first. *)
Example oldest_comments_of_post :
  map (fun it => cr_commentID (ci_row it))
      (returned_comments
         (fst (getComments (mkGetCommentsReq 1 (Some 1) (Some 20) (Some "oldest") None) seed))) =
    [1; 2; 3] /\
  returned_totalCount
    (fst (getComments (mkGetCommentsReq 1 (Some 1) (Some 20) (Some "oldest") None) seed)) =
    Some 3 /\
  returned_totalPages
    (fst (getComments (mkGetCommentsReq 1 (Some 1) (Some 20) (Some "oldest") None) seed)) =
    Some 1.
Proof. repeat split; reflexivity. Qed.

(** The answers to an unnamed policy and to "recent" differ in the echoed
    [sortBy] field only. *)
Example sortBy_is_echoed :
  payload (fst (getPosts (mkGetPostsReq None None (Some "xyz")) seed)) =
  match payload (fst (getPosts (mkGetPostsReq None None (Some "recent")) seed)) with
  | PostsPayload page pages total per _ posts => PostsPayload page pages total per "xyz" posts
  | other => other
  end.
Proof. reflexivity. Qed.

(* ================================================================== *)
(** * Further properties of the handlers *)

(** ** Creating a post *)



Lemma user_known_in (db : DB) (u : string) :
  user_known db u = true <-> In u (map u_username (db_users db)).
Proof.
  unfold user_known. split.
  - intro H. apply existsb_exists in H as [x [Hx E]]. apply String.eqb_eq in E.
    rewrite <- E. now apply in_map.
  - intro H. apply in_map_iff in H as [x [E Hx]]. apply existsb_exists.
    exists x. split; [exact Hx|]. rewrite E. apply String.eqb_refl.
Qed.


(** X1. [createPost] answers 400 when the title or the body is missing or
    empty, and then neither the database nor the post counter changes. *)
Theorem createPost_missing_fields (req : CreatePostReq) (st : Store) :
  cp_title req = "" \/ cp_body req = "" ->
  createPost req st =
  (mkCreatePostResponse 400 false "Title and body are required" None, st).
Proof.
  intro H. unfold createPost.
  destruct H as [-> | ->]; cbn [String.eqb orb]; [reflexivity|].
  now rewrite orb_true_r.
Qed.


(** ** The outcomes of [addLike] and [removeLike] *)

Lemma found_in (ids : list Z) (id : Z) :
  (0 <? Z.of_nat (List.length (filter (fun i => i =? id) ids))) = true -> In id ids.
Proof.
  intro H. destruct (filter (fun i => i =? id) ids) as [|i rest] eqn:E;
    [discriminate H|].
  assert (Hi : In i (filter (fun i => i =? id) ids)) by (rewrite E; now left).
  apply filter_In in Hi as [Hi Heq]. apply Z.eqb_eq in Heq. now subst.
Qed.

Lemma entity_found (db : DB) (et : string) (id : Z) :
  valid_entityType et = true ->
  (0 <? Z.of_nat
          (List.length
             (if String.eqb et "POST"
              then filter (fun i => i =? id) (map p_postID (db_posts db))
              else filter (fun i => i =? id) (map c_commentID (db_comments db))))) = true <->
  entity_exists db et id.
Proof.
  unfold valid_entityType, entity_exists. intro Hv.
  destruct (String.eqb_spec et "POST") as [->|Hne].
  - split; [intro H; left; split; [reflexivity | now apply found_in]|].
    intros [[_ H]|[E _]]; [now apply id_found | discriminate E].
  - cbn [orb] in Hv. apply String.eqb_eq in Hv. subst et.
    split; [intro H; right; split; [reflexivity | now apply found_in]|].
    intros [[E _]|[_ H]]; [discriminate E | now apply id_found].
Qed.

Lemma user_row_found (db : DB) (u : string) (p : PolLean) (rest : list PolLean) :
  map u_polLean (filter (fun x => String.eqb (u_username x) u) (db_users db)) = p :: rest ->
  exists usr, In usr (db_users db) /\ u_username usr = u /\ u_polLean usr = p.
Proof.
  intro E.
  destruct (filter (fun x => String.eqb (u_username x) u) (db_users db)) as [|usr r] eqn:F;
    [discriminate E|].
  injection E as Hp _. exists usr.
  assert (H : In usr (filter (fun x => String.eqb (u_username x) u) (db_users db)))
    by (rewrite F; now left).
  apply filter_In in H as [Hin Heq]. apply String.eqb_eq in Heq. now repeat split.
Qed.

(** What a 201 of [addLike] says about the request and does to the
    database. *)
Lemma addLike_success (req : LikeReq) (w : World) :
  status (fst (addLike req w)) = 201 ->
  exists t usr,
    entityType_of_string (lk_entityType req) = Some t /\
    In usr (db_users (w_db w)) /\ u_username usr = lk_username req /\
    existsb (like_of (lk_username req) (lk_entityType req) (lk_entityID req))
            (db_likes (w_db w)) = false /\
    entity_exists (w_db w) (lk_entityType req) (lk_entityID req) /\
    w_db (snd (addLike req w)) =
      insert_like (lk_username req) t (lk_entityID req) (u_polLean usr) (w_db w) /\
    returned_likes (fst (addLike req w)) =
      Some (like_distribution
              (insert_like (lk_username req) t (lk_entityID req) (u_polLean usr) (w_db w))
              (lk_entityType req) (lk_entityID req)).
Proof.
  rewrite addLike_run. cbv zeta.
  destruct (map u_polLean _) as [|p rest] eqn:Hu; [intro H; discriminate H|].
  destruct (valid_entityType (lk_entityType req)) eqn:Hv; cbn [negb];
    [|intro H; discriminate H].
  destruct (0 <? _) eqn:Hf; cbn [negb]; [|intro H; discriminate H].
  destruct (entityType_of_string _) as [t|]; [|intro H; discriminate H].
  destruct (existsb _ _); [intro H; discriminate H|].
  destruct (negb (user_known _ _)); [intro H; discriminate H|].
  intros _. destruct (user_row_found _ _ _ _ Hu) as [usr [Hin [Hname Hp]]].
  exists t, usr. subst p. cbn [fst snd w_db returned_likes payload].
  repeat split; try assumption. now apply (entity_found (w_db w)).
Qed.

(** From the Unliked state, with the user and the entity present,
    [addLike] answers 201. *)
Lemma addLike_succeeds (req : LikeReq) (w : World) :
  In (lk_username req) (map u_username (db_users (w_db w))) ->
  entity_exists (w_db w) (lk_entityType req) (lk_entityID req) ->
  existsb (like_of (lk_username req) (lk_entityType req) (lk_entityID req))
          (db_likes (w_db w)) = false ->
  status (fst (addLike req w)) = 201.
Proof.
  intros Hu He Hno. rewrite addLike_run. cbv zeta.
  destruct (user_found _ _ Hu) as [p [rest ->]].
  assert (Hv : valid_entityType (lk_entityType req) = true)
    by (destruct He as [[-> _]|[-> _]]; reflexivity).
  rewrite Hv, (proj2 (entity_found _ _ _ Hv) He). cbn [negb].
  destruct (valid_entityType_of_string _ Hv) as [t ->].
  rewrite Hno, (proj2 (user_known_in _ _) Hu). reflexivity.
Qed.

Lemma delete_like_noop (u et : string) (id : Z) (db : DB) :
  existsb (like_of u et id) (db_likes db) = false -> delete_like u et id db = db.
Proof.
  intro H. unfold delete_like.
  destruct (existsb_false_filter _ _ H) as [_ ->]. now destruct db.
Qed.

(** [addLike] either leaves the database as it is or inserts one row. *)
Lemma addLike_db (req : LikeReq) (w : World) :
  w_db (snd (addLike req w)) = w_db w \/ status (fst (addLike req w)) = 201.
Proof.
  rewrite addLike_run. cbv zeta.
  destruct (map u_polLean _); [now left|].
  destruct (negb (valid_entityType _)); [now left|].
  destruct (negb (0 <? _)); [now left|].
  destruct (entityType_of_string _); [|now left].
  destruct (existsb _ _); [now left|].
  destruct (negb (user_known _ _)); [now left | now right].
Qed.

Lemma removeLike_db (req : LikeReq) (w : World) :
  (w_db (snd (removeLike req w)) = w_db w /\ status (fst (removeLike req w)) <> 200) \/
  (w_db (snd (removeLike req w)) =
     delete_like (lk_username req) (lk_entityType req) (lk_entityID req) (w_db w) /\
   status (fst (removeLike req w)) = 200 /\
   valid_entityType (lk_entityType req) = true /\
   existsb (like_of (lk_username req) (lk_entityType req) (lk_entityID req))
           (db_likes (w_db w)) = true).
Proof.
  rewrite removeLike_run. cbv zeta. rewrite count_if_existsb.
  destruct (valid_entityType _); cbn [negb]; [|left; split; [reflexivity | discriminate]].
  destruct (existsb _ _) eqn:E; cbn [negb fst snd w_db status].
  - right. now repeat split.
  - left. split; [now apply delete_like_noop | discriminate].
Qed.

(** X3. [addLike] by a user that is not in [Users] answers 404 "User not
    found" whatever the entity; by a known user, for a valid type, on a
    post or comment that does not exist it answers 404 "post not found" or
    "comment not found". In both cases the database is unchanged and
    [insertLike] is never called: only the lookups were sent. *)
Theorem addLike_not_found (req : LikeReq) (w : World) :
  let u := lk_username req in
  let et := lk_entityType req in
  let id := lk_entityID req in
  let r := fst (addLike req w) in
  let w' := snd (addLike req w) in
  (~ In u (map u_username (db_users (w_db w))) ->
   status r = 404 /\ message r = Some "User not found" /\
   w_db w' = w_db w /\ w_log w' = w_log w ++ [SelectUserPolLean u])
  /\
  (In u (map u_username (db_users (w_db w))) ->
   valid_entityType et = true ->
   ~ entity_exists (w_db w) et id ->
   status r = 404 /\
   message r = Some (if String.eqb et "POST" then "post not found" else "comment not found") /\
   w_db w' = w_db w /\
   w_log w' =
     (w_log w ++ [SelectUserPolLean u]) ++
     [if String.eqb et "POST" then SelectPostID id else SelectCommentID id]).
Proof.
  intros u et id r w'. subst r w'. rewrite addLike_run. cbv zeta. fold u et id. split.
  - intro Hnot. rewrite (user_not_found _ _ Hnot). now repeat split.
  - intros Hu Hv Hno. destruct (user_found _ _ Hu) as [p [rest ->]].
    rewrite Hv. cbn [negb].
    destruct (0 <? _) eqn:Hf.
    { exfalso. apply Hno. now apply (entity_found (w_db w)). }
    cbn [negb fst snd status message w_db w_log].
    unfold valid_entityType in Hv.
    destruct (String.eqb_spec et "POST") as [E|_].
    + rewrite E. now repeat split.
    + cbn [orb] in Hv. apply String.eqb_eq in Hv. rewrite Hv. now repeat split.
Qed.

Lemma like_on_inserted (u : string) (t : EntityType) (id likeID now : Z) (p : PolLean)
    (et' : string) (id' : Z) :
  like_on et' id' (mkLike likeID u t id p now) =
  String.eqb (entityType_str t) et' && (id =? id').
Proof. reflexivity. Qed.

Lemma like_count_insert (u : string) (t : EntityType) (id : Z) (p : PolLean) (db : DB)
    (et' : string) (id' : Z) (q : PolLean) :
  like_count (insert_like u t id p db) et' id' q =
  like_count db et' id' q +
  (if String.eqb (entityType_str t) et' && (id =? id') && polLean_eqb p q then 1 else 0).
Proof.
  unfold like_count, count_if, insert_like. cbn [db_likes].
  rewrite filter_app. cbn [filter]. rewrite like_on_inserted.
  destruct (String.eqb (entityType_str t) et' && (id =? id')); cbn [andb].
  - rewrite filter_app, length_app. cbn [filter l_polLean].
    destruct (polLean_eqb p q); cbn [List.length app]; lia.
  - now rewrite app_nil_r, Z.add_0_r.
Qed.

Lemma like_distribution_insert_other (u : string) (t : EntityType) (id : Z) (p : PolLean)
    (db : DB) (et' : string) (id' : Z) :
  et' <> entityType_str t \/ id' <> id ->
  like_distribution (insert_like u t id p db) et' id' = like_distribution db et' id'.
Proof.
  intro Hne. unfold like_distribution, insert_like. cbn [db_likes].
  rewrite filter_app. cbn [filter]. rewrite like_on_inserted.
  replace (String.eqb (entityType_str t) et' && (id =? id')) with false;
    [now rewrite app_nil_r|].
  symmetry. apply andb_false_iff.
  destruct Hne as [H|H]; [left | right].
  - apply String.eqb_neq. congruence.
  - apply Z.eqb_neq. congruence.
Qed.

(** X4. A like that is added (201) is counted once, in the bucket of the
    leaning the liking user has in [Users] at that moment: on the liked
    entity that bucket grows by one and the six others keep their counts,
    the distributions of all other entities are unchanged, and the answer
    carries the refreshed distribution. *)
Theorem addLike_counts_one (req : LikeReq) (w : World) :
  status (fst (addLike req w)) = 201 ->
  let et := lk_entityType req in
  let id := lk_entityID req in
  let db := w_db w in
  let db' := w_db (snd (addLike req w)) in
  exists usr,
    In usr (db_users db) /\ u_username usr = lk_username req /\
    (forall q,
       like_count db' et id q =
       like_count db et id q + (if polLean_eqb (u_polLean usr) q then 1 else 0)) /\
    (forall et' id', et' <> et \/ id' <> id ->
                     like_distribution db' et' id' = like_distribution db et' id') /\
    returned_likes (fst (addLike req w)) = Some (like_distribution db' et id).
Proof.
  intros H et id db db'.
  destruct (addLike_success req w H) as [t [usr [Ht [Hin [Hname [_ [_ [Hdb Hret]]]]]]]].
  pose proof (entityType_of_string_str _ _ Ht) as Hstr. fold et in Hstr.
  exists usr. subst db'. rewrite Hdb. fold et id db. repeat split; try assumption.
  - intro q. rewrite like_count_insert, Hstr.
    now rewrite String.eqb_refl, Z.eqb_refl.
  - intros et' id' Hne. apply like_distribution_insert_other. now rewrite Hstr.
Qed.

(** X5. The like mutations are all-or-nothing: an [addLike] that does not
    answer 201 and a [removeLike] that does not answer 200 leave the
    database exactly as it was. *)
Theorem like_mutations_all_or_nothing (req : LikeReq) (w : World) :
  (status (fst (addLike req w)) <> 201 -> w_db (snd (addLike req w)) = w_db w) /\
  (status (fst (removeLike req w)) <> 200 -> w_db (snd (removeLike req w)) = w_db w).
Proof.
  split; intro H.
  - destruct (addLike_db req w) as [E|E]; [exact E | now destruct H].
  - destruct (removeLike_db req w) as [[E _]|[_ [E _]]]; [exact E | now destruct H].
Qed.

Lemma like_key_match (u et : string) (id : Z) (t : EntityType) (l : Like) :
  entityType_str t = et -> like_key l = (u, t, id) -> like_of u et id l = true.
Proof.
  intros Hstr Hk. unfold like_key in Hk. injection Hk as Hu Ht Hid.
  unfold like_of, like_on. rewrite Hu, Ht, Hid, Hstr.
  now rewrite !String.eqb_refl, Z.eqb_refl.
Qed.

Lemma entity_exists_likes (db : DB) (likes : list Like) (nl li : Z) (et : string) (id : Z) :
  entity_exists
    (mkDB (db_users db) (db_posts db) (db_comments db) likes
          (db_nextCommentID db) nl li (db_now db)) et id <->
  entity_exists db et id.
Proof. reflexivity. Qed.

(** X6. [addLike] keeps the constraints of the [Likes] table: the unique
    key on (username, entityType, entityID), the foreign key into [Users],
    the primary key with ids below the counter, and that every like is on
    an existing post or comment. *)
Theorem addLike_keeps_constraints (req : LikeReq) (w : World) :
  let db := w_db w in
  let db' := w_db (snd (addLike req w)) in
  (unique_like db -> unique_like db') /\
  (fk_Likes_Users db -> fk_Likes_Users db') /\
  (pk_Likes db -> pk_Likes db') /\
  (likes_on_entities db -> likes_on_entities db').
Proof.
  intros db db'. subst db'.
  destruct (addLike_db req w) as [E|H]; [rewrite E; tauto|].
  destruct (addLike_success req w H) as [t [usr [Ht [Hin [Hname [Hno [Hent [Hdb _]]]]]]]].
  pose proof (entityType_of_string_str _ _ Ht) as Hstr.
  rewrite Hdb. fold db in Hin, Hno, Hent |- *. clear Hdb H.
  set (u := lk_username req) in *. set (id := lk_entityID req) in *.
  set (et := lk_entityType req) in *.
  repeat apply conj.
  - unfold unique_like, insert_like. cbn [db_likes]. intro ND.
    rewrite map_app. apply NoDup_app; [exact ND | nodup_literal|].
    intros k Hk [Hrow|[]]. cbn [like_key l_username l_entityType l_entityID] in Hrow.
    apply in_map_iff in Hk as [l [Hl Hinl]]. rewrite <- Hrow in Hl.
    pose proof (like_key_match u et id t l Hstr Hl) as Hm.
    assert (Hex : existsb (like_of u et id) (db_likes db) = true)
      by (apply existsb_exists; now exists l).
    rewrite Hno in Hex. discriminate Hex.
  - unfold fk_Likes_Users, insert_like. cbn [db_likes db_users]. intros FK l Hl.
    apply in_app_iff in Hl as [Hl|[<-|[]]]; [now apply FK|].
    cbn [l_username]. rewrite <- Hname. now apply in_map.
  - unfold pk_Likes, insert_like. cbn [db_likes db_nextLikeID]. intros [ND Hlt]. split.
    + rewrite map_app. apply NoDup_app; [exact ND | nodup_literal|].
      intros k Hk [Hrow|[]]. cbn [l_likeID] in Hrow.
      apply in_map_iff in Hk as [l [Hl Hinl]]. specialize (Hlt l Hinl). lia.
    + intros l Hl. apply in_app_iff in Hl as [Hl|[<-|[]]].
      * specialize (Hlt l Hl). lia.
      * cbn [l_likeID]. lia.
  - unfold likes_on_entities, insert_like. cbn [db_likes]. intros Hall l Hl.
    apply entity_exists_likes.
    apply in_app_iff in Hl as [Hl|[<-|[]]]; [now apply Hall|].
    cbn [l_entityType l_entityID]. now rewrite Hstr.
Qed.

(** X7. [removeLike] keeps the same constraints of the [Likes] table. *)
Theorem removeLike_keeps_constraints (req : LikeReq) (w : World) :
  let db := w_db w in
  let db' := w_db (snd (removeLike req w)) in
  (unique_like db -> unique_like db') /\
  (fk_Likes_Users db -> fk_Likes_Users db') /\
  (pk_Likes db -> pk_Likes db') /\
  (likes_on_entities db -> likes_on_entities db').
Proof.
  intros db db'. subst db'.
  destruct (removeLike_db req w) as [[E _]|[E _]]; rewrite E; [tauto|].
  fold db. unfold unique_like, fk_Likes_Users, pk_Likes, likes_on_entities, delete_like.
  cbn [db_likes db_users db_nextLikeID].
  repeat apply conj.
  - apply NoDup_map_filter.
  - intros FK l Hl. apply filter_In in Hl as [Hl _]. now apply FK.
  - intros [ND Hlt]. split; [now apply NoDup_map_filter|].
    intros l Hl. apply filter_In in Hl as [Hl _]. now apply Hlt.
  - intros Hall l Hl. apply filter_In in Hl as [Hl _].
    apply entity_exists_likes. now apply Hall.
Qed.

Lemma addLike_conflict (req : LikeReq) (w : World) :
  In (lk_username req) (map u_username (db_users (w_db w))) ->
  entity_exists (w_db w) (lk_entityType req) (lk_entityID req) ->
  existsb (like_of (lk_username req) (lk_entityType req) (lk_entityID req))
          (db_likes (w_db w)) = true ->
  status (fst (addLike req w)) = 409 /\ w_db (snd (addLike req w)) = w_db w.
Proof.
  intros Hu He Hex. rewrite addLike_run. cbv zeta.
  destruct (user_found _ _ Hu) as [p [rest ->]].
  assert (Hv : valid_entityType (lk_entityType req) = true)
    by (destruct He as [[-> _]|[-> _]]; reflexivity).
  rewrite Hv, (proj2 (entity_found _ _ _ Hv) He). cbn [negb].
  destruct (valid_entityType_of_string _ Hv) as [t ->].
  rewrite Hex. now split.
Qed.

(** X8. The like of a triple toggles. After an add that answered 201 the
    triple is liked: the same add again answers 409 and changes nothing.
    After a remove that answered 200 the triple is not liked: the same
    remove again answers 404, and, the user and the entity being there,
    the add answers 201 again. *)
Theorem like_toggles (req : LikeReq) (w : World) :
  let u := lk_username req in
  let et := lk_entityType req in
  let id := lk_entityID req in
  (status (fst (addLike req w)) = 201 ->
   let w1 := snd (addLike req w) in
   liked_by (w_db w1) u et id /\
   status (fst (addLike req w1)) = 409 /\
   w_db (snd (addLike req w1)) = w_db w1)
  /\
  (status (fst (removeLike req w)) = 200 ->
   let w1 := snd (removeLike req w) in
   ~ liked_by (w_db w1) u et id /\
   status (fst (removeLike req w1)) = 404 /\
   (In u (map u_username (db_users (w_db w))) ->
    entity_exists (w_db w) et id ->
    status (fst (addLike req w1)) = 201)).
Proof.
  intros u et id. split.
  - intros H w1.
    destruct (addLike_success req w H) as [t [usr [Ht [Hin [Hname [_ [Hent [Hdb _]]]]]]]].
    fold w1 in Hdb. fold u et id in Ht, Hname, Hent, Hdb.
    pose proof (entityType_of_string_str _ _ Ht) as Hstr.
    assert (Hex : existsb (like_of u et id) (db_likes (w_db w1)) = true).
    { rewrite Hdb. unfold insert_like. cbn [db_likes].
      rewrite existsb_app. apply orb_true_iff. right. cbn [existsb].
      unfold like_of. rewrite like_on_inserted. cbn [l_username].
      now rewrite Hstr, !String.eqb_refl, Z.eqb_refl. }
    split; [now apply existsb_liked_by|].
    apply addLike_conflict; fold u et id; [| |exact Hex].
    + rewrite Hdb. cbn [insert_like db_users]. rewrite <- Hname. now apply in_map.
    + rewrite Hdb. unfold insert_like. now apply entity_exists_likes.
  - intros H w1.
    destruct (removeLike_db req w) as [[_ Hs]|[Hdb [_ [Hv _]]]]; [now destruct Hs|].
    fold w1 in Hdb. fold u et id in Hdb, Hv.
    assert (Hno : existsb (like_of u et id) (db_likes (w_db w1)) = false).
    { rewrite Hdb. unfold delete_like. cbn [db_likes].
      destruct (existsb _ _) eqn:E; [|reflexivity].
      apply existsb_exists in E as [l [Hl Hm]]. apply filter_In in Hl as [_ Hl].
      rewrite Hm in Hl. discriminate Hl. }
    repeat apply conj.
    + intro Hl. apply liked_by_existsb in Hl. rewrite Hno in Hl. discriminate Hl.
    + rewrite removeLike_run. cbv zeta. fold u et id.
      rewrite Hv, count_if_existsb, Hno. reflexivity.
    + intros Hu He. apply addLike_succeeds; fold u et id; [| |exact Hno].
      * now rewrite Hdb.
      * rewrite Hdb. unfold delete_like. now apply entity_exists_likes.
Qed.

(** ** Totals and sort keys *)

(** A count over the likes of an entity, restricted to some leanings, is
    the sum of the buckets of those leanings. *)
Lemma likes_in_buckets (db : DB) (et : string) (id : Z) (f : PolLean -> bool) :
  likes_in db et id f =
  (if f FL then like_count db et id FL else 0) +
  (if f L then like_count db et id L else 0) +
  (if f SL then like_count db et id SL else 0) +
  (if f M then like_count db et id M else 0) +
  (if f SR then like_count db et id SR else 0) +
  (if f R then like_count db et id R else 0) +
  (if f FR then like_count db et id FR else 0).
Proof.
  unfold likes_in, like_count, count_if.
  induction (db_likes db) as [|a r IH].
  - cbn. destruct (f FL), (f L), (f SL), (f M), (f SR), (f R), (f FR); reflexivity.
  - cbn [filter]. destruct (like_on et id a); cbn [andb]; [|exact IH].
    cbn [filter]. revert IH.
    destruct (l_polLean a); cbn [polLean_eqb];
      destruct (f FL), (f L), (f SL), (f M), (f SR), (f R), (f FR);
      cbn [List.length]; lia.
Qed.


Lemma sum_values_distribution (db : DB) (et : string) (id : Z) :
  sum_values (like_distribution db et id) = Some (likes_in db et id any_lean).
Proof.
  pose proof (like_distribution_reports db et id) as H.
  unfold reports_all_seven in H. rewrite H, likes_in_buckets. cbn. f_equal. all: lia.
Qed.

(** The scalars of a listed post are the counts the order clauses sort by. *)
Lemma post_item_values (db : DB) (row : PostRow * Z) :
  let id := pr_postID (fst row) in
  let it := post_item db row in
  pi_totalLikes it = Some (likes_in db "POST" id any_lean) /\
  pi_rightLikes it = Some (likes_in db "POST" id is_right) /\
  pi_leftLikes it = Some (likes_in db "POST" id is_left) /\
  pi_moderateLikes it = Some (likes_in db "POST" id is_moderate) /\
  pi_polarizationScore it =
    Some (Z.abs (likes_in db "POST" id is_right - likes_in db "POST" id is_left)).
Proof.
  intros id it. subst it. unfold post_item. fold id.
  cbn [pi_totalLikes pi_rightLikes pi_leftLikes pi_moderateLikes pi_polarizationScore].
  split; [apply sum_values_distribution|].
  pose proof (like_distribution_reports db "POST" id) as H.
  unfold reports_all_seven in H. rewrite H, !likes_in_buckets. cbn.
  repeat split; f_equal; lia.
Qed.


(** ** The order of a page *)

Lemma sql_precedes_total (ka kb : list (Dir * Z)) :
  map fst ka = map fst kb ->
  sql_precedes ka kb = false -> sql_precedes kb ka = true.
Proof.
  revert kb. induction ka as [|[d a] ka IH]; intros [|[d' b] kb] Hs H;
    try discriminate; cbn in *.
  injection Hs as <- Hs.
  destruct d.
  - rewrite (Z.compare_antisym a b). destruct (a ?= b); cbn; try discriminate; auto.
  - rewrite (Z.compare_antisym b a). destruct (b ?= a); cbn; try discriminate; auto.
Qed.

Lemma sql_precedes_trans (ka kb kc : list (Dir * Z)) :
  map fst ka = map fst kb -> map fst kb = map fst kc ->
  sql_precedes ka kb = true -> sql_precedes kb kc = true -> sql_precedes ka kc = true.
Proof.
  revert kb kc. induction ka as [|[d a] ka IH]; intros [|[d' b] kb] [|[d'' c] kc] H1 H2 P1 P2;
    try discriminate; try reflexivity; cbn in *.
  injection H1 as <- H1. injection H2 as <- H2.
  destruct d.
  - destruct (Z.compare_spec a b), (Z.compare_spec b c), (Z.compare_spec a c);
      try discriminate; try reflexivity; try lia; eauto.
  - destruct (Z.compare_spec b a), (Z.compare_spec c b), (Z.compare_spec c a);
      try discriminate; try reflexivity; try lia; eauto.
Qed.

Section OrderBy.
Context {A : Type} (key : A -> list (Dir * Z)).
Hypothesis same_clause : forall x y, map fst (key x) = map fst (key y).

Let before (a b : A) : Prop := sql_precedes (key a) (key b) = true.

Lemma sql_insert_sorted (x : A) (l : list A) :
  StronglySorted before l -> StronglySorted before (sql_insert key x l).
Proof.
  induction 1 as [|a l Hl IH Ha]; cbn.
  - apply SSorted_cons; [apply SSorted_nil | apply Forall_nil].
  - destruct (sql_precedes (key x) (key a)) eqn:E.
    + apply SSorted_cons; [now apply SSorted_cons|].
      apply Forall_cons; [exact E|].
      eapply Forall_impl; [|exact Ha]. intros b Hb.
      eapply sql_precedes_trans; eauto.
    + apply SSorted_cons; [exact IH|].
      eapply Permutation_Forall; [apply sql_insert_perm|].
      apply Forall_cons; [|exact Ha].
      apply sql_precedes_total; auto.
Qed.

(** [ORDER BY] returns the rows in the order of the clause. *)
Lemma sql_order_by_sorted (l : list A) : StronglySorted before (sql_order_by key l).
Proof.
  unfold sql_order_by. induction l as [|x r IH]; cbn;
    [apply SSorted_nil | now apply sql_insert_sorted].
Qed.
End OrderBy.

Lemma StronglySorted_skipn {A} (R : A -> A -> Prop) (n : nat) (l : list A) :
  StronglySorted R l -> StronglySorted R (skipn n l).
Proof.
  revert l. induction n as [|n IH]; intros l H; [exact H|].
  destruct l as [|a l]; [exact H|]. cbn. apply IH. now apply StronglySorted_inv in H.
Qed.

Lemma in_firstn {A} (n : nat) (l : list A) (x : A) : In x (firstn n l) -> In x l.
Proof.
  revert l. induction n as [|n IH]; intros [|a l] H; cbn in H; try contradiction.
  destruct H as [->|H]; [now left | right; now apply IH].
Qed.


Lemma StronglySorted_firstn {A} (R : A -> A -> Prop) (n : nat) (l : list A) :
  StronglySorted R l -> StronglySorted R (firstn n l).
Proof.
  revert l. induction n as [|n IH]; intros l H; [apply SSorted_nil|].
  destruct l as [|a l]; [apply SSorted_nil|]. cbn.
  apply StronglySorted_inv in H as [Hl Ha].
  apply SSorted_cons; [now apply IH|].
  apply Forall_forall. intros b Hb. apply (proj1 (Forall_forall _ _) Ha).
  eapply in_firstn; eauto.
Qed.

Lemma StronglySorted_map {A B} (f : A -> B) (R : A -> A -> Prop) (R' : B -> B -> Prop)
    (l : list A) :
  (forall a b, R a b -> R' (f a) (f b)) ->
  StronglySorted R l -> StronglySorted R' (map f l).
Proof.
  intros Hf. induction 1 as [|a l Hl IH Ha]; cbn; [apply SSorted_nil|].
  apply SSorted_cons; [exact IH|].
  apply Forall_forall. intros b Hb. apply in_map_iff in Hb as [x [<- Hx]].
  apply Hf. exact (proj1 (Forall_forall _ _) Ha x Hx).
Qed.

Lemma precedes_desc (a b : Z) :
  sql_precedes [(DESC, a)] [(DESC, b)] = true -> b <= a.
Proof. cbn. destruct (Z.compare_spec b a); intro P; try discriminate P; lia. Qed.


Lemma precedes_desc_desc (ka da kb db : Z) :
  sql_precedes [(DESC, ka); (DESC, da)] [(DESC, kb); (DESC, db)] = true ->
  kb < ka \/ (kb = ka /\ db <= da).
Proof.
  cbn. destruct (Z.compare_spec kb ka); intro P; try discriminate P; [right | left; lia].
  split; [assumption|]. destruct (Z.compare_spec db da); try discriminate P; lia.
Qed.

Lemma precedes_asc_desc (ka da kb db : Z) :
  sql_precedes [(ASC, ka); (DESC, da)] [(ASC, kb); (DESC, db)] = true ->
  ka < kb \/ (ka = kb /\ db <= da).
Proof.
  cbn. destruct (Z.compare_spec ka kb); intro P; try discriminate P; [right | left; lia].
  split; [assumption|]. destruct (Z.compare_spec db da); try discriminate P; lia.
Qed.

(** A page of posts is in the order of the clause, whatever the relation
    the clause means for the listed items. *)
Lemma posts_page_ranked (db : DB) (order : PostOrder) (limit offset : Z)
    (R : PostItem -> PostItem -> Prop) :
  (forall p u c p' u' c',
     sql_precedes (post_order_key db order p) (post_order_key db order p') = true ->
     R (post_item db (post_row (p, u), c)) (post_item db (post_row (p', u'), c'))) ->
  StronglySorted R (map (post_item db) (limit_offset limit offset (posts_ordered db order))).
Proof.
  intro HR. rewrite limit_offset_map. unfold limit_offset.
  apply StronglySorted_firstn, StronglySorted_skipn.
  unfold posts_ordered. rewrite map_map.
  eapply (StronglySorted_map _
            (fun a b => sql_precedes (post_order_key db order (fst a))
                                     (post_order_key db order (fst b)) = true)).
  - intros [p u] [p' u']. cbn [fst]. apply HR.
  - apply (sql_order_by_sorted (fun pu => post_order_key db order (fst pu))).
    intros x y. destruct order; reflexivity.
Qed.


Ltac posts_of_policy :=
  rewrite getPosts_run; cbv zeta; cbn [gp_page gp_limit gp_sortBy];
  match goal with
  | |- context [post_orderClause (string_or (Some ?s) "recent")] =>
      let o := eval cbv in (post_orderClause (string_or (Some s) "recent")) in
      change (post_orderClause (string_or (Some s) "recent")) with o
  end;
  destruct (_ || _); cbn [fst returned_posts payload]; [apply SSorted_nil|];
  apply posts_page_ranked; intros p u c p' u' c' H;
  match goal with
  | w : World |- _ =>
      destruct (post_item_values (w_db w) (post_row (p, u), c)) as (Ht & Hr & Hl & Hm & Hp);
      destruct (post_item_values (w_db w) (post_row (p', u'), c'))
        as (Ht' & Hr' & Hl' & Hm' & Hp');
      cbn [fst post_row pr_postID] in Ht, Hr, Hl, Hm, Hp, Ht', Hr', Hl', Hm', Hp';
      cbn [post_order_key] in H; cbn [post_row]
  end.

(** X10. A page of [getPosts] is ranked as its policy says, for every
    page and limit: "recent" by date, newest first; "controversial",
    "right", "left" and "moderate" by the reported totalLikes, rightLikes,
    leftLikes and moderateLikes, largest first; "balanced" by the reported
    polarizationScore, smallest first; ties always by date, newest first.
    Each post is ranked against every later post of the page. *)
Theorem listed_posts_are_ranked (page limit : option Z) (w : World) :
  let posts s := returned_posts (fst (getPosts (mkGetPostsReq page limit (Some s)) w)) in
  let date it := pr_datePosted (pi_row it) in
  StronglySorted (fun a b => date b <= date a) (posts "recent") /\
  StronglySorted
    (fun a b => ranks_desc (pi_totalLikes a) (pi_totalLikes b) (date a) (date b))
    (posts "controversial") /\
  StronglySorted
    (fun a b => ranks_desc (pi_rightLikes a) (pi_rightLikes b) (date a) (date b))
    (posts "right") /\
  StronglySorted
    (fun a b => ranks_desc (pi_leftLikes a) (pi_leftLikes b) (date a) (date b))
    (posts "left") /\
  StronglySorted
    (fun a b => ranks_desc (pi_moderateLikes a) (pi_moderateLikes b) (date a) (date b))
    (posts "moderate") /\
  StronglySorted
    (fun a b => ranks_asc (pi_polarizationScore a) (pi_polarizationScore b) (date a) (date b))
    (posts "balanced").
Proof.
  intros posts date. subst posts date. cbv beta.
  repeat apply conj; posts_of_policy.
  - now apply precedes_desc in H.
  - apply precedes_desc_desc in H. unfold ranks_desc. rewrite Ht, Ht'. eauto.
  - apply precedes_desc_desc in H. unfold ranks_desc. rewrite Hr, Hr'. eauto.
  - apply precedes_desc_desc in H. unfold ranks_desc. rewrite Hl, Hl'. eauto.
  - apply precedes_desc_desc in H. unfold ranks_desc. rewrite Hm, Hm'. eauto.
  - apply precedes_asc_desc in H. unfold ranks_asc. rewrite Hp, Hp'. eauto.
Qed.




(** ** Pages out of range and defaults *)



(** ** What a listing shows *)




Lemma forallb_map_true {A B} (f : A -> B) (g : B -> bool) (l : list A) :
  (forall a, g (f a) = true) -> forallb g (map f l) = true.
Proof.
  intro H. induction l as [|a r IH]; cbn; [reflexivity|]. now rewrite H, IH.
Qed.

(** X15. The three read operations only read: [getPosts], [getPostById]
    and [getComments] leave the database as it is on every request, and
    every statement they send is a SELECT. *)
Theorem listings_only_read (w : World) :
  (forall req,
     w_db (snd (getPosts req w)) = w_db w /\
     exists sent, w_log (snd (getPosts req w)) = w_log w ++ sent /\
                  forallb is_select sent = true) /\
  (forall postID,
     w_db (snd (getPostById postID w)) = w_db w /\
     exists sent, w_log (snd (getPostById postID w)) = w_log w ++ sent /\
                  forallb is_select sent = true) /\
  (forall req,
     w_db (snd (getComments req w)) = w_db w /\
     exists sent, w_log (snd (getComments req w)) = w_log w ++ sent /\
                  forallb is_select sent = true).
Proof.
  repeat apply conj.
  - intro req. rewrite getPosts_run. cbv zeta.
    destruct (_ || _); cbn [snd w_db w_log]; (split; [reflexivity|]).
    + eexists. split; reflexivity.
    + eexists. split; [rewrite <- !app_assoc; reflexivity|].
      cbn [app forallb is_select andb]. rewrite forallb_app, forallb_map_true; reflexivity.
  - intro postID. rewrite getPostById_run. cbv zeta.
    destruct (map post_row _); cbn [snd w_db w_log]; (split; [reflexivity|]).
    + eexists. split; reflexivity.
    + eexists. split; [rewrite <- !app_assoc; reflexivity|].
      cbn [app forallb is_select andb]. apply forallb_map_true. reflexivity.
  - intro req. rewrite getComments_run. cbv zeta.
    destruct (filter _ _); cbn [snd w_db w_log]; [split; [reflexivity|]|].
    { eexists. split; reflexivity. }
    destruct (_ || _); cbn [snd w_db w_log]; (split; [reflexivity|]).
    + eexists. split; [rewrite <- !app_assoc; reflexivity|]. reflexivity.
    + eexists. split; [rewrite <- !app_assoc; reflexivity|].
      cbn [app forallb is_select andb]. rewrite forallb_app, forallb_map_true; reflexivity.
Qed.

(** ** Fetching one post *)




(* ================================================================== *)
(** * Registration, login and the protected routes *)

Lemma valid_polLean_of_string (s : string) :
  valid_polLean s = true <-> exists p, polLean_of_string s = Some p.
Proof.
  unfold valid_polLean, polLean_of_string. cbn [existsb].
  destruct (String.eqb s "FL"); [split; [now exists FL | reflexivity]|].
  destruct (String.eqb s "L"); [split; [now exists L | reflexivity]|].
  destruct (String.eqb s "SL"); [split; [now exists SL | reflexivity]|].
  destruct (String.eqb s "M"); [split; [now exists M | reflexivity]|].
  destruct (String.eqb s "SR"); [split; [now exists SR | reflexivity]|].
  destruct (String.eqb s "R"); [split; [now exists R | reflexivity]|].
  destruct (String.eqb s "FR"); [split; [now exists FR | reflexivity]|].
  split; [discriminate | intros [p H]; discriminate H].
Qed.

Lemma polLean_of_string_str (s : string) (p : PolLean) :
  polLean_of_string s = Some p -> polLean_str p = s.
Proof.
  unfold polLean_of_string.
  repeat match goal with
         | |- context [String.eqb s ?c] =>
             destruct (String.eqb_spec s c) as [->|_];
             [intro H; injection H as <-; reflexivity|]
         end.
  intro H. discriminate H.
Qed.

Lemma existsb_username (users : list User) (k : string) :
  existsb (fun u => String.eqb (u_username u) k) users = false <->
  ~ In k (map u_username users).
Proof.
  split.
  - intros H Hin. apply in_map_iff in Hin as [u [E Hu]].
    assert (X : existsb (fun u => String.eqb (u_username u) k) users = true).
    { apply existsb_exists. exists u. split; [exact Hu|]. rewrite E. apply String.eqb_refl. }
    rewrite H in X. discriminate X.
  - intro H. destruct (existsb _ users) eqn:E; [|reflexivity].
    apply existsb_exists in E as [u [Hu E]]. apply String.eqb_eq in E.
    exfalso. apply H. rewrite <- E. now apply in_map.
Qed.

Lemma existsb_email (users : list User) (k : string) :
  existsb (fun u => String.eqb (u_email u) k) users = false <->
  ~ In k (map u_email users).
Proof.
  split.
  - intros H Hin. apply in_map_iff in Hin as [u [E Hu]].
    assert (X : existsb (fun u => String.eqb (u_email u) k) users = true).
    { apply existsb_exists. exists u. split; [exact Hu|]. rewrite E. apply String.eqb_refl. }
    rewrite H in X. discriminate X.
  - intro H. destruct (existsb _ users) eqn:E; [|reflexivity].
    apply existsb_exists in E as [u [Hu E]]. apply String.eqb_eq in E.
    exfalso. apply H. rewrite <- E. now apply in_map.
Qed.

(** What a 201 of [register] says about the request and does to the
    database. *)
Lemma register_created (hash : string -> string) (sign : list (string * string) -> string)
    (req : RegisterReq) (db : DB) :
  ar_status (fst (register hash sign req db)) = 201 ->
  exists lean,
    register_fields_ok req /\
    polLean_of_string (rg_polLean req) = Some lean /\
    ~ In (rg_username req) (map u_username (db_users db)) /\
    ~ In (rg_email req) (map u_email (db_users db)) /\
    snd (register hash sign req db) =
      insert_user (rg_username req) (rg_firstName req) (rg_lastName req) (rg_email req)
                  (hash (rg_password req)) lean db /\
    fst (register hash sign req db) =
      mkAuthResponse 201 true (Some "Registration successful")
        (Some (sign [("username", rg_username req)]))
        (Some (mkUserView (rg_username req) (rg_firstName req) (rg_lastName req)
                          (rg_email req) (rg_polLean req) None None)).
Proof.
  unfold register, call_insertUser, register_fields_ok.
  destruct (String.eqb_spec (rg_username req) ""); [intro H; discriminate H|].
  destruct (String.eqb_spec (rg_firstName req) ""); [intro H; discriminate H|].
  destruct (String.eqb_spec (rg_lastName req) ""); [intro H; discriminate H|].
  destruct (String.eqb_spec (rg_email req) ""); [intro H; discriminate H|].
  destruct (String.eqb_spec (rg_password req) ""); [intro H; discriminate H|].
  destruct (String.eqb_spec (rg_polLean req) ""); [intro H; discriminate H|].
  cbn [orb].
  destruct (valid_polLean (rg_polLean req)) eqn:Hv; cbn [negb]; [|intro H; discriminate H].
  destruct (fits_insertUser _ _ _ _ _); cbn [negb]; [|intro H; discriminate H].
  destruct (polLean_of_string (rg_polLean req)) as [lean|]; [|intro H; discriminate H].
  destruct (existsb (fun u => String.eqb (u_username u) _) _) eqn:Eu;
    [intro H; discriminate H|].
  destruct (existsb (fun u => String.eqb (u_email u) _) _) eqn:Ee;
    [intro H; discriminate H|].
  intros _. exists lean. cbn [fst snd].
  repeat split; try assumption; try reflexivity.
  - now apply existsb_username.
  - now apply existsb_email.
Qed.

Lemma register_db (hash : string -> string) (sign : list (string * string) -> string)
    (req : RegisterReq) (db : DB) :
  snd (register hash sign req db) = db \/
  ar_status (fst (register hash sign req db)) = 201.
Proof.
  unfold register, call_insertUser.
  destruct (_ || _); [now left|].
  destruct (negb (valid_polLean _)); [now left|].
  destruct (negb (fits_insertUser _ _ _ _ _)); [now left|].
  destruct (polLean_of_string _); [|now left].
  destruct (existsb (fun u => String.eqb (u_username u) _) _); [now left|].
  destruct (existsb (fun u => String.eqb (u_email u) _) _); [now left | now right].
Qed.

(** X17. [register] answers 400, and leaves the database untouched, when a
    field is missing or empty, and, with all fields given, when the
    leaning is not one of FL, L, SL, M, SR, R, FR. *)
Theorem register_validates (hash : string -> string) (sign : list (string * string) -> string)
    (req : RegisterReq) (db : DB) :
  (rg_username req = "" \/ rg_firstName req = "" \/ rg_lastName req = "" \/
   rg_email req = "" \/ rg_password req = "" \/ rg_polLean req = "" ->
   ar_status (fst (register hash sign req db)) = 400 /\
   ar_token (fst (register hash sign req db)) = None /\
   snd (register hash sign req db) = db)
  /\
  (rg_username req <> "" -> rg_firstName req <> "" -> rg_lastName req <> "" ->
   rg_email req <> "" -> rg_password req <> "" -> rg_polLean req <> "" ->
   valid_polLean (rg_polLean req) = false ->
   fst (register hash sign req db) =
     mkAuthResponse 400 false
       (Some "Invalid political leaning. Must be one of: FL, L, SL, M, SR, R, FR")
       None None /\
   snd (register hash sign req db) = db).
Proof.
  unfold register. split.
  - intro H.
    assert (E : String.eqb (rg_username req) "" || String.eqb (rg_firstName req) "" ||
                String.eqb (rg_lastName req) "" || String.eqb (rg_email req) "" ||
                String.eqb (rg_password req) "" || String.eqb (rg_polLean req) "" = true).
    { destruct H as [-> | [-> | [-> | [-> | [-> | ->]]]]]; cbn [String.eqb];
        rewrite ?orb_true_r; reflexivity. }
    rewrite E. now repeat split.
  - intros H1 H2 H3 H4 H5 H6 Hv.
    destruct (String.eqb_spec (rg_username req) ""); [contradiction|].
    destruct (String.eqb_spec (rg_firstName req) ""); [contradiction|].
    destruct (String.eqb_spec (rg_lastName req) ""); [contradiction|].
    destruct (String.eqb_spec (rg_email req) ""); [contradiction|].
    destruct (String.eqb_spec (rg_password req) ""); [contradiction|].
    destruct (String.eqb_spec (rg_polLean req) ""); [contradiction|].
    cbn [orb]. rewrite Hv. now split.
Qed.

(** X18. [register] never creates a second user with a username or an
    email that is in use: a 201 means both were free, and then exactly
    one user is added, not verified, with the hashed password and the
    leaning of the request, so that the primary key of [Users] and the
    uniqueness of emails are kept; any other answer leaves the database
    as it was. *)
Theorem register_keeps_users_unique (hash : string -> string)
    (sign : list (string * string) -> string) (req : RegisterReq) (db : DB) :
  let r := fst (register hash sign req db) in
  let db' := snd (register hash sign req db) in
  (ar_status r <> 201 -> db' = db) /\
  (ar_status r = 201 ->
   ~ In (rg_username req) (map u_username (db_users db)) /\
   ~ In (rg_email req) (map u_email (db_users db)) /\
   exists lean,
     polLean_str lean = rg_polLean req /\
     db_users db' =
       db_users db ++
       [mkUser (rg_username req) (rg_firstName req) (rg_lastName req) (rg_email req)
               (hash (rg_password req)) lean false (db_now db)]) /\
  (pk_Users db -> pk_Users db') /\
  (unique_email db -> unique_email db').
Proof.
  intros r db'. subst r db'. repeat apply conj.
  - intro H. destruct (register_db hash sign req db) as [E|E]; [exact E | now destruct H].
  - intro H. destruct (register_created hash sign req db H)
      as (lean & _ & Hl & Hu & He & Hdb & _).
    repeat split; try assumption. exists lean.
    split; [now apply polLean_of_string_str|]. now rewrite Hdb.
  - intro PK. destruct (register_db hash sign req db) as [E|H]; [now rewrite E|].
    destruct (register_created hash sign req db H) as (lean & _ & _ & Hu & _ & Hdb & _).
    rewrite Hdb. unfold pk_Users, insert_user. cbn [db_users].
    rewrite map_app. apply NoDup_app; [exact PK | nodup_literal|].
    intros k Hk [<-|[]]. now apply Hu.
  - intro UE. destruct (register_db hash sign req db) as [E|H]; [now rewrite E|].
    destruct (register_created hash sign req db H) as (lean & _ & _ & _ & He & Hdb & _).
    rewrite Hdb. unfold unique_email, insert_user. cbn [db_users].
    rewrite map_app. apply NoDup_app; [exact UE | nodup_literal|].
    intros k Hk [<-|[]]. now apply He.
Qed.

(** X19. With a valid request whose values fit the columns, [register]
    answers 409 "Username already in use" when the username is taken, and
    409 "Email already in use" when the username is free and the email is
    taken; the username is checked first. *)
Theorem register_conflicts (hash : string -> string) (sign : list (string * string) -> string)
    (req : RegisterReq) (db : DB) :
  register_fields_ok req ->
  fits_insertUser (rg_username req) (rg_firstName req) (rg_lastName req) (rg_email req)
                  (hash (rg_password req)) = true ->
  (In (rg_username req) (map u_username (db_users db)) ->
   fst (register hash sign req db) =
     mkAuthResponse 409 false (Some "Username already in use") None None)
  /\
  (~ In (rg_username req) (map u_username (db_users db)) ->
   In (rg_email req) (map u_email (db_users db)) ->
   fst (register hash sign req db) =
     mkAuthResponse 409 false (Some "Email already in use") None None).
Proof.
  intros (H1 & H2 & H3 & H4 & H5 & H6 & Hv) Hfit.
  destruct (proj1 (valid_polLean_of_string _) Hv) as [lean Hlean].
  unfold register, call_insertUser.
  destruct (String.eqb_spec (rg_username req) ""); [contradiction|].
  destruct (String.eqb_spec (rg_firstName req) ""); [contradiction|].
  destruct (String.eqb_spec (rg_lastName req) ""); [contradiction|].
  destruct (String.eqb_spec (rg_email req) ""); [contradiction|].
  destruct (String.eqb_spec (rg_password req) ""); [contradiction|].
  destruct (String.eqb_spec (rg_polLean req) ""); [contradiction|].
  cbn [orb]. rewrite Hv, Hfit, Hlean. cbn [negb]. split.
  - intro Hin.
    destruct (existsb (fun u => String.eqb (u_username u) _) _) eqn:E; [reflexivity|].
    apply existsb_username in E. contradiction.
  - intros Hfree Hin.
    rewrite (proj2 (existsb_username _ _) Hfree).
    destruct (existsb (fun u => String.eqb (u_email u) _) _) eqn:E; [reflexivity|].
    apply existsb_email in E. contradiction.
Qed.

Lemma registered_user_found (username firstName lastName email passHash : string)
    (lean : PolLean) (db : DB) :
  ~ In username (map u_username (db_users db)) ->
  filter (fun u => String.eqb (u_username u) username)
         (db_users (insert_user username firstName lastName email passHash lean db)) =
  [mkUser username firstName lastName email passHash lean false (db_now db)].
Proof.
  intro Hfree. unfold insert_user. cbn [db_users].
  rewrite filter_app, filter_none.
  - cbn [filter u_username app]. now rewrite String.eqb_refl.
  - intros u Hu. destruct (String.eqb_spec (u_username u) username) as [E|_]; [|reflexivity].
    exfalso. apply Hfree. rewrite <- E. now apply in_map.
Qed.

(** X20. Registration round trip: after a [register] that answered 201,
    [login] with the same username and password succeeds (given that the
    password check accepts the hash of that password) and shows the
    registered names, email and leaning, not verified; [login] with a
    password the check refuses is answered 401 without a token; and
    [getProfile] of the username shows the same user with its creation
    date. *)
Theorem register_then_login (hash : string -> string) (compare : string -> string -> bool)
    (sign : list (string * string) -> string) (req : RegisterReq) (db : DB) :
  ar_status (fst (register hash sign req db)) = 201 ->
  let db' := snd (register hash sign req db) in
  (compare (rg_password req) (hash (rg_password req)) = true ->
   login compare sign (mkLoginReq (rg_username req) (rg_password req)) db' =
   mkAuthResponse 200 true (Some "Login successful")
     (Some (sign [("email", rg_email req); ("username", rg_username req)]))
     (Some (mkUserView (rg_username req) (rg_firstName req) (rg_lastName req)
                       (rg_email req) (rg_polLean req) (Some false) None)))
  /\
  (forall password,
     password <> "" ->
     compare password (hash (rg_password req)) = false ->
     login compare sign (mkLoginReq (rg_username req) password) db' =
     mkAuthResponse 401 false (Some "Invalid credentials") None None)
  /\
  getProfile (rg_username req) db' =
  mkAuthResponse 200 true None None
    (Some (mkUserView (rg_username req) (rg_firstName req) (rg_lastName req)
                      (rg_email req) (rg_polLean req) (Some false) (Some (db_now db)))).
Proof.
  intros H db'.
  destruct (register_created hash sign req db H)
    as (lean & (Hu & _ & _ & _ & Hp & _) & Hl & Hfree & _ & Hdb & _).
  subst db'. rewrite Hdb.
  pose proof (registered_user_found (rg_username req) (rg_firstName req) (rg_lastName req)
                (rg_email req) (hash (rg_password req)) lean db Hfree) as Hfound.
  pose proof (polLean_of_string_str _ _ Hl) as Hstr.
  repeat apply conj.
  - intro Hc. unfold login. cbn [lg_username lg_password].
    destruct (String.eqb_spec (rg_username req) ""); [contradiction|].
    destruct (String.eqb_spec (rg_password req) ""); [contradiction|].
    cbn [orb]. rewrite Hfound. cbn. now rewrite Hc, Hstr.
  - intros password Hne Hc. unfold login. cbn [lg_username lg_password].
    destruct (String.eqb_spec (rg_username req) ""); [contradiction|].
    destruct (String.eqb_spec password ""); [contradiction|].
    cbn [orb]. rewrite Hfound. cbn. now rewrite Hc.
  - unfold getProfile. rewrite Hfound. cbn. now rewrite Hstr.
Qed.

(** X21. [login] gives a token only for a stored user whose password the
    check accepts; a missing user and a refused password are answered
    alike, 401 "Invalid credentials", with no token and no user. *)
Theorem login_checks_credentials (compare : string -> string -> bool)
    (sign : list (string * string) -> string) (req : LoginReq) (db : DB) :
  let r := login compare sign req db in
  (ar_status r = 200 ->
   exists user,
     In user (db_users db) /\ u_username user = lg_username req /\
     compare (lg_password req) (u_passHash user) = true /\
     ar_token r = Some (sign [("email", u_email user); ("username", u_username user)])) /\
  (ar_status r <> 200 -> ar_token r = None /\ ar_user r = None) /\
  (lg_username req <> "" -> lg_password req <> "" ->
   (forall user, In user (db_users db) -> u_username user = lg_username req ->
                 compare (lg_password req) (u_passHash user) = false) ->
   r = mkAuthResponse 401 false (Some "Invalid credentials") None None).
Proof.
  intro r. subst r. unfold login. repeat apply conj.
  - destruct (_ || _); [intro H; discriminate H|].
    destruct (filter _ _) as [|user rest] eqn:F; [intro H; discriminate H|].
    assert (Hin : In user (filter (fun u => String.eqb (u_username u) (lg_username req))
                                  (db_users db))) by (rewrite F; now left).
    apply filter_In in Hin as [Hin Hn]. apply String.eqb_eq in Hn.
    destruct (compare _ _) eqn:C; cbn [negb]; [|intro H; discriminate H].
    intros _. exists user. now repeat split.
  - destruct (_ || _); [now split|].
    destruct (filter _ _) as [|user rest]; [now split|].
    destruct (negb _); [now split|]. intro H. now destruct H.
  - intros Hu Hp Hall.
    destruct (String.eqb_spec (lg_username req) ""); [contradiction|].
    destruct (String.eqb_spec (lg_password req) ""); [contradiction|].
    cbn [orb].
    destruct (filter _ _) as [|user rest] eqn:F; [reflexivity|].
    assert (Hin : In user (filter (fun u => String.eqb (u_username u) (lg_username req))
                                  (db_users db))) by (rewrite F; now left).
    apply filter_In in Hin as [Hin Hn]. apply String.eqb_eq in Hn.
    now rewrite (Hall user Hin Hn).
Qed.

(** X22. A like carries the leaning chosen at registration: after a
    [register] that answered 201, a like added (201) by the new user is
    counted in the bucket of the leaning of the registration request,
    which grows by one, the other buckets of the entity keeping their
    counts. *)
Theorem registered_leaning_is_counted (hash : string -> string)
    (sign : list (string * string) -> string) (req : RegisterReq) (db : DB)
    (entityType : string) (entityID : Z) (lg : list Sql) :
  ar_status (fst (register hash sign req db)) = 201 ->
  let w1 := mkWorld (snd (register hash sign req db)) lg in
  let like := mkLikeReq (rg_username req) entityType entityID in
  status (fst (addLike like w1)) = 201 ->
  exists lean,
    polLean_str lean = rg_polLean req /\
    forall q,
      like_count (w_db (snd (addLike like w1))) entityType entityID q =
      like_count db entityType entityID q + (if polLean_eqb lean q then 1 else 0).
Proof.
  intros H w1 like Hadd.
  destruct (register_created hash sign req db H) as (lean & _ & Hl & Hfree & _ & Hdb & _).
  destruct (addLike_success like w1 Hadd) as (t & usr & Ht & Hin & Hname & _ & _ & Hdb2 & _).
  cbn [like lk_username lk_entityType lk_entityID w1 w_db] in Ht, Hin, Hname, Hdb2.
  exists lean. split; [now apply polLean_of_string_str|].
  assert (Husr : u_polLean usr = lean).
  { rewrite Hdb in Hin. unfold insert_user in Hin. cbn [db_users] in Hin.
    apply in_app_iff in Hin as [Hin|[<-|[]]]; [|reflexivity].
    exfalso. apply Hfree. rewrite <- Hname. now apply in_map. }
  intro q. rewrite Hdb2, like_count_insert, Husr.
  rewrite (entityType_of_string_str _ _ Ht), String.eqb_refl, Z.eqb_refl. cbn [andb].
  now rewrite Hdb.
Qed.

(** ** The middleware and the protected routes *)

Lemma auth_denied (verify : string -> option string) (token : option string) :
  token = None \/ token = Some "" \/ (exists t, token = Some t /\ verify t = None) ->
  exists m, auth verify token = inl (mkResponse 401 false (Some m) NoPayload).
Proof.
  unfold auth. intros [->|[->|[t [-> Hv]]]]; [eexists; reflexivity ..|].
  destruct (String.eqb t ""); [eexists; reflexivity|]. rewrite Hv. eexists; reflexivity.
Qed.

Lemma auth_granted (verify : string -> option string) (token : option string) (u : string) :
  auth verify token = inr u ->
  exists t, token = Some t /\ t <> "" /\ verify t = Some u.
Proof.
  unfold auth. destruct token as [t|]; [|intro H; discriminate H].
  destruct (String.eqb_spec t "") as [->|Hne]; [intro H; discriminate H|].
  destruct (verify t) as [u'|] eqn:E; [|intro H; discriminate H].
  intro H. injection H as <-. now exists t.
Qed.

(** X23. The routes behind the middleware do nothing without a token
    that verifies: with no token, an empty token or a token the
    verification rejects, POST /likes, DELETE /likes, POST /comments and
    POST /posts answer 401 and leave the database and the log as they
    are. Conversely, whenever one of the like routes changes the
    database, the token verified, and the change is the handler's for the
    verified username. *)
Theorem protected_routes_require_token (verify : string -> option string)
    (token : option string) :
  (token = None \/ token = Some "" \/ (exists t, token = Some t /\ verify t = None) ->
   (forall et id w,
      status (fst (route_post_likes verify token et id w)) = 401 /\
      snd (route_post_likes verify token et id w) = w) /\
   (forall et id w,
      status (fst (route_delete_likes verify token et id w)) = 401 /\
      snd (route_delete_likes verify token et id w) = w) /\
   (forall postID body parent w,
      status (fst (route_post_comments verify token postID body parent w)) = 401 /\
      snd (route_post_comments verify token postID body parent w) = w) /\
   (forall title body sources st,
      cpr_status (fst (route_post_posts verify token title body sources st)) = 401 /\
      snd (route_post_posts verify token title body sources st) = st))
  /\
  (forall et id w,
     w_db (snd (route_post_likes verify token et id w)) <> w_db w ->
     exists t u, token = Some t /\ verify t = Some u /\
                 route_post_likes verify token et id w = addLike (mkLikeReq u et id) w)
  /\
  (forall et id w,
     w_db (snd (route_delete_likes verify token et id w)) <> w_db w ->
     exists t u, token = Some t /\ verify t = Some u /\
                 route_delete_likes verify token et id w = removeLike (mkLikeReq u et id) w).
Proof.
  repeat apply conj.
  - intro H. destruct (auth_denied verify token H) as [m Hm].
    unfold route_post_likes, route_delete_likes, route_post_comments, route_post_posts.
    rewrite Hm. repeat split.
  - intros et id w. unfold route_post_likes.
    destruct (auth verify token) as [r|u] eqn:E; [intro H; now destruct H|].
    intros _. destruct (auth_granted _ _ _ E) as (t & Ht & _ & Hv). now exists t, u.
  - intros et id w. unfold route_delete_likes.
    destruct (auth verify token) as [r|u] eqn:E; [intro H; now destruct H|].
    intros _. destruct (auth_granted _ _ _ E) as (t & Ht & _ & Hv). now exists t, u.
Qed.

(** ** The procedure [getLikes] *)

Lemma sum_case_count (p : PolLean) (rows : list Like) (acc : Z) :
  fold_left (fun a l => a + (if polLean_eqb (l_polLean l) p then 1 else 0)) rows acc =
  acc + count_if (fun l => polLean_eqb (l_polLean l) p) rows.
Proof.
  unfold count_if. revert acc. induction rows as [|l r IH]; intro acc; cbn [fold_left filter].
  - cbn. lia.
  - rewrite IH. destruct (polLean_eqb (l_polLean l) p); cbn [List.length]; lia.
Qed.

(** X24. The procedure [getLikes] signals 'Invalid Post ID' or 'Invalid
    Comment ID' for an entity that does not exist. For an entity that
    exists and has at least one like, each of its seven sums is the count
    the controller reports for that leaning; for an entity without likes
    every sum is NULL, where the controller reports 0. *)
Theorem getLikes_sums (t : EntityType) (id : Z) (db : DB) :
  let et := entityType_str t in
  (~ entity_exists db et id ->
   call_getLikes t id db =
   Rejected (match t with POST => "Invalid Post ID" | COMMENT => "Invalid Comment ID" end))
  /\
  (entity_exists db et id ->
   exists row,
     call_getLikes t id db = Resolved row /\
     forall p,
       ls_get p row =
       if count_if (like_on et id) (db_likes db) =? 0 then None
       else obj_get (polLean_str p) (like_distribution db et id)).
Proof.
  intro et. subst et. split.
  - intro Hno. unfold call_getLikes. destruct t; cbn [entityType_str] in Hno.
    + destruct (existsb _ _) eqn:E; [|reflexivity].
      apply existsb_exists in E as [p [Hp E]]. apply Z.eqb_eq in E.
      exfalso. apply Hno. left. split; [reflexivity|]. rewrite <- E. now apply in_map.
    + destruct (existsb _ _) eqn:E; [|reflexivity].
      apply existsb_exists in E as [c [Hc E]]. apply Z.eqb_eq in E.
      exfalso. apply Hno. right. split; [reflexivity|]. rewrite <- E. now apply in_map.
  - intro He.
    assert (Hex : call_getLikes t id db =
                  let rows := filter (like_on (entityType_str t) id) (db_likes db) in
                  Resolved (mkLikeSums (sum_case FR rows) (sum_case R rows) (sum_case SR rows)
                                       (sum_case M rows) (sum_case SL rows) (sum_case L rows)
                                       (sum_case FL rows))).
    { unfold call_getLikes. destruct t; cbn [entityType_str] in *.
      - destruct He as [[_ Hin]|[E _]]; [|discriminate E].
        apply in_map_iff in Hin as [p [E Hp]].
        replace (existsb (fun p => p_postID p =? id) (db_posts db)) with true; [reflexivity|].
        symmetry. apply existsb_exists. exists p. split; [exact Hp | now apply Z.eqb_eq].
      - destruct He as [[E _]|[_ Hin]]; [discriminate E|].
        apply in_map_iff in Hin as [c [E Hc]].
        replace (existsb (fun c => c_commentID c =? id) (db_comments db)) with true;
          [reflexivity|].
        symmetry. apply existsb_exists. exists c. split; [exact Hc | now apply Z.eqb_eq]. }
    rewrite Hex. cbv zeta. eexists. split; [reflexivity|].
    intro p.
    pose proof (like_distribution_reports db (entityType_str t) id) as Hd.
    unfold reports_all_seven in Hd. rewrite Hd. unfold like_count, count_if.
    destruct (filter (like_on (entityType_str t) id) (db_likes db)) as [|l rows] eqn:F.
    + destruct p; reflexivity.
    + replace (Z.of_nat (List.length (l :: rows)) =? 0) with false
        by (symmetry; apply Z.eqb_neq; cbn [List.length]; lia).
      destruct p; cbn [ls_get ls_FL ls_L ls_SL ls_M ls_SR ls_R ls_FR sum_case polLean_str];
        rewrite sum_case_count; reflexivity.
Qed.

(* ================================================================== *)
(** * The further properties at work on the seed data *)


Lemma liked_fk_Likes : fk_Likes_Users liked_db.
Proof. intros l Hl. simpl in Hl. simpl. intuition (subst; simpl; tauto). Defined.

Lemma liked_pk_Likes : pk_Likes liked_db.
Proof.
  split; [simpl; nodup_literal|].
  intros l Hl. simpl in Hl. simpl. intuition (subst; simpl; lia).
Defined.

Lemma liked_likes_on_entities : likes_on_entities liked_db.
Proof.
  intros l Hl. simpl in Hl. unfold entity_exists.
  intuition (subst; simpl; tauto).
Defined.

Lemma seed_unique_email : unique_email seed_db.
Proof. unfold unique_email. simpl. nodup_literal. Defined.

Lemma createPost_missing_fields_witness :
  createPost (mkCreatePostReq "johndoe" "" "Some text" None) seed_store =
  (mkCreatePostResponse 400 false "Title and body are required" None, seed_store).
Proof.
  apply (createPost_missing_fields (mkCreatePostReq "johndoe" "" "Some text" None) seed_store).
  left. reflexivity.
Defined.


Lemma addLike_not_found_witness :
  status (fst (addLike (mkLikeReq "nobody" "POST" 1) seed)) = 404 /\
  message (fst (addLike (mkLikeReq "johndoe" "COMMENT" 99) seed)) = Some "comment not found".
Proof.
  destruct (addLike_not_found (mkLikeReq "nobody" "POST" 1) seed) as [Hunknown _].
  destruct (addLike_not_found (mkLikeReq "johndoe" "COMMENT" 99) seed) as [_ Hmissing].
  split.
  - apply Hunknown. simpl. intuition discriminate.
  - apply Hmissing.
    + simpl. tauto.
    + reflexivity.
    + intros [[E _]|[_ H]]; [discriminate E | simpl in H; intuition discriminate].
Defined.

Lemma addLike_counts_one_witness :
  status (fst (addLike (mkLikeReq "johndoe" "POST" 1) liked)) = 201 /\
  exists usr,
    In usr (db_users liked_db) /\ u_username usr = "johndoe" /\
    forall q,
      like_count (w_db (snd (addLike (mkLikeReq "johndoe" "POST" 1) liked))) "POST" 1 q =
      like_count liked_db "POST" 1 q + (if polLean_eqb (u_polLean usr) q then 1 else 0).
Proof.
  assert (H : status (fst (addLike (mkLikeReq "johndoe" "POST" 1) liked)) = 201)
    by reflexivity.
  split; [exact H|].
  destruct (addLike_counts_one (mkLikeReq "johndoe" "POST" 1) liked H)
    as (usr & Hin & Hn & Hc & _).
  exists usr. repeat split; assumption.
Defined.

Lemma like_mutations_all_or_nothing_witness :
  w_db (snd (addLike (mkLikeReq "janedoe" "POST" 1) liked)) = liked_db /\
  w_db (snd (removeLike (mkLikeReq "johndoe" "POST" 1) liked)) = liked_db.
Proof.
  destruct (like_mutations_all_or_nothing (mkLikeReq "janedoe" "POST" 1) liked) as [Hadd _].
  destruct (like_mutations_all_or_nothing (mkLikeReq "johndoe" "POST" 1) liked) as [_ Hrem].
  split.
  - apply Hadd. intro H. vm_compute in H. discriminate H.
  - apply Hrem. intro H. vm_compute in H. discriminate H.
Defined.

Lemma addLike_keeps_constraints_witness :
  unique_like (w_db (snd (addLike (mkLikeReq "johndoe" "POST" 1) liked))) /\
  fk_Likes_Users (w_db (snd (addLike (mkLikeReq "johndoe" "POST" 1) liked))) /\
  pk_Likes (w_db (snd (addLike (mkLikeReq "johndoe" "POST" 1) liked))) /\
  likes_on_entities (w_db (snd (addLike (mkLikeReq "johndoe" "POST" 1) liked))).
Proof.
  destruct (addLike_keeps_constraints (mkLikeReq "johndoe" "POST" 1) liked)
    as (Hu & Hf & Hp & He).
  split; [|split; [|split]].
  - apply Hu, liked_unique_like.
  - apply Hf, liked_fk_Likes.
  - apply Hp, liked_pk_Likes.
  - apply He, liked_likes_on_entities.
Defined.

Lemma removeLike_keeps_constraints_witness :
  unique_like (w_db (snd (removeLike (mkLikeReq "janedoe" "POST" 1) liked))) /\
  fk_Likes_Users (w_db (snd (removeLike (mkLikeReq "janedoe" "POST" 1) liked))) /\
  pk_Likes (w_db (snd (removeLike (mkLikeReq "janedoe" "POST" 1) liked))) /\
  likes_on_entities (w_db (snd (removeLike (mkLikeReq "janedoe" "POST" 1) liked))).
Proof.
  destruct (removeLike_keeps_constraints (mkLikeReq "janedoe" "POST" 1) liked)
    as (Hu & Hf & Hp & He).
  split; [|split; [|split]].
  - apply Hu, liked_unique_like.
  - apply Hf, liked_fk_Likes.
  - apply Hp, liked_pk_Likes.
  - apply He, liked_likes_on_entities.
Defined.

Lemma like_toggles_witness :
  status (fst (addLike (mkLikeReq "johndoe" "POST" 1)
                       (snd (addLike (mkLikeReq "johndoe" "POST" 1) liked)))) = 409 /\
  status (fst (removeLike (mkLikeReq "janedoe" "POST" 1)
                          (snd (removeLike (mkLikeReq "janedoe" "POST" 1) liked)))) = 404 /\
  status (fst (addLike (mkLikeReq "janedoe" "POST" 1)
                       (snd (removeLike (mkLikeReq "janedoe" "POST" 1) liked)))) = 201.
Proof.
  destruct (like_toggles (mkLikeReq "johndoe" "POST" 1) liked) as [Hadd _].
  destruct (like_toggles (mkLikeReq "janedoe" "POST" 1) liked) as [_ Hrem].
  destruct (Hadd eq_refl) as (_ & Hconflict & _).
  destruct (Hrem eq_refl) as (_ & Hgone & Hagain).
  repeat apply conj.
  - exact Hconflict.
  - exact Hgone.
  - apply Hagain.
    + simpl. tauto.
    + left. split; [reflexivity | simpl; tauto].
Defined.




Lemma register_validates_witness :
  ar_status (fst (register demo_hash demo_sign
                    (mkRegisterReq "" "Alice" "Liddell" "alice@example.com" "rabbit" "SL")
                    seed_db)) = 400 /\
  ar_message (fst (register demo_hash demo_sign
                     (mkRegisterReq "alice" "Alice" "Liddell" "alice@example.com" "rabbit" "XL")
                     seed_db)) =
    Some "Invalid political leaning. Must be one of: FL, L, SL, M, SR, R, FR".
Proof.
  destruct (register_validates demo_hash demo_sign
              (mkRegisterReq "" "Alice" "Liddell" "alice@example.com" "rabbit" "SL") seed_db)
    as [Hmissing _].
  destruct (register_validates demo_hash demo_sign
              (mkRegisterReq "alice" "Alice" "Liddell" "alice@example.com" "rabbit" "XL")
              seed_db)
    as [_ Hlean].
  split.
  - apply Hmissing. left. reflexivity.
  - assert (Hr : fst (register demo_hash demo_sign
                        (mkRegisterReq "alice" "Alice" "Liddell" "alice@example.com"
                                       "rabbit" "XL") seed_db) =
                 mkAuthResponse 400 false
                   (Some "Invalid political leaning. Must be one of: FL, L, SL, M, SR, R, FR")
                   None None).
    { apply Hlean; simpl; try discriminate. reflexivity. }
    now rewrite Hr.
Defined.

Lemma register_keeps_users_unique_witness :
  ar_status (fst (register demo_hash demo_sign new_user seed_db)) = 201 /\
  pk_Users (snd (register demo_hash demo_sign new_user seed_db)) /\
  unique_email (snd (register demo_hash demo_sign new_user seed_db)) /\
  ~ In "alice" (map u_username (db_users seed_db)).
Proof.
  destruct (register_keeps_users_unique demo_hash demo_sign new_user seed_db)
    as (_ & Hcreated & Hpk & Hue).
  repeat apply conj.
  - reflexivity.
  - apply Hpk, liked_pk_Users.
  - apply Hue, seed_unique_email.
  - now destruct (Hcreated eq_refl) as (Hfree & _).
Defined.

Lemma register_conflicts_witness :
  ar_message (fst (register demo_hash demo_sign
                     (mkRegisterReq "johndoe" "John" "Doe" "jd@example.com" "secret" "M")
                     seed_db)) = Some "Username already in use" /\
  ar_message (fst (register demo_hash demo_sign
                     (mkRegisterReq "johnny" "John" "Doe" "johndoe@example.com" "secret" "M")
                     seed_db)) = Some "Email already in use".
Proof.
  assert (Hok1 : register_fields_ok
                   (mkRegisterReq "johndoe" "John" "Doe" "jd@example.com" "secret" "M"))
    by (unfold register_fields_ok; simpl; repeat split; discriminate).
  assert (Hok2 : register_fields_ok
                   (mkRegisterReq "johnny" "John" "Doe" "johndoe@example.com" "secret" "M"))
    by (unfold register_fields_ok; simpl; repeat split; discriminate).
  destruct (register_conflicts demo_hash demo_sign
              (mkRegisterReq "johndoe" "John" "Doe" "jd@example.com" "secret" "M") seed_db
              Hok1 eq_refl) as [Hname _].
  destruct (register_conflicts demo_hash demo_sign
              (mkRegisterReq "johnny" "John" "Doe" "johndoe@example.com" "secret" "M") seed_db
              Hok2 eq_refl) as [_ Hmail].
  split.
  - rewrite Hname; [reflexivity | simpl; tauto].
  - rewrite Hmail; [reflexivity | simpl; intuition discriminate | simpl; tauto].
Defined.

Lemma register_then_login_witness :
  ar_status (login demo_compare demo_sign (mkLoginReq "alice" "rabbit")
                   (snd (register demo_hash demo_sign new_user seed_db))) = 200 /\
  ar_status (login demo_compare demo_sign (mkLoginReq "alice" "hare")
                   (snd (register demo_hash demo_sign new_user seed_db))) = 401 /\
  ar_status (getProfile "alice" (snd (register demo_hash demo_sign new_user seed_db))) = 200.
Proof.
  destruct (register_then_login demo_hash demo_compare demo_sign new_user seed_db eq_refl)
    as (Hin & Hwrong & Hprofile).
  repeat apply conj.
  - change (mkLoginReq "alice" "rabbit")
      with (mkLoginReq (rg_username new_user) (rg_password new_user)).
    now rewrite (Hin eq_refl).
  - change (mkLoginReq "alice" "hare") with (mkLoginReq (rg_username new_user) "hare").
    rewrite (Hwrong "hare"); [reflexivity | discriminate | reflexivity].
  - change "alice" with (rg_username new_user). now rewrite Hprofile.
Defined.

Lemma login_checks_credentials_witness :
  (exists user,
     In user (db_users (snd (register demo_hash demo_sign new_user seed_db))) /\
     u_username user = "alice") /\
  ar_token (login demo_compare demo_sign (mkLoginReq "alice" "hare")
                  (snd (register demo_hash demo_sign new_user seed_db))) = None /\
  login demo_compare demo_sign (mkLoginReq "nobody" "secret") seed_db =
  mkAuthResponse 401 false (Some "Invalid credentials") None None.
Proof.
  destruct (login_checks_credentials demo_compare demo_sign (mkLoginReq "alice" "rabbit")
              (snd (register demo_hash demo_sign new_user seed_db))) as (Hok & _ & _).
  destruct (login_checks_credentials demo_compare demo_sign (mkLoginReq "alice" "hare")
              (snd (register demo_hash demo_sign new_user seed_db))) as (_ & Hno & _).
  destruct (login_checks_credentials demo_compare demo_sign (mkLoginReq "nobody" "secret")
              seed_db) as (_ & _ & Hbad).
  repeat apply conj.
  - destruct (Hok eq_refl) as (user & Hin & Hn & _). now exists user.
  - apply Hno. intro H. vm_compute in H. discriminate H.
  - apply Hbad; try (simpl; discriminate).
    intros user Hin Hn. simpl in Hin, Hn.
    intuition (subst; discriminate).
Defined.

Lemma registered_leaning_is_counted_witness :
  exists lean,
    polLean_str lean = "SL" /\
    like_count
      (w_db (snd (addLike (mkLikeReq "alice" "POST" 1)
                          (mkWorld (snd (register demo_hash demo_sign new_user seed_db)) []))))
      "POST" 1 SL =
    like_count seed_db "POST" 1 SL + (if polLean_eqb lean SL then 1 else 0).
Proof.
  destruct (registered_leaning_is_counted demo_hash demo_sign new_user seed_db "POST" 1 []
              eq_refl eq_refl) as (lean & Hl & Hc).
  exists lean. split; [exact Hl | apply Hc].
Defined.

Lemma protected_routes_witness :
  status (fst (route_post_likes demo_verify (Some "forged") "POST" 1 liked)) = 401 /\
  snd (route_delete_likes demo_verify None "POST" 1 liked) = liked /\
  exists t u,
    Some "johndoe" = Some t /\ demo_verify t = Some u /\
    route_post_likes demo_verify (Some "johndoe") "POST" 1 liked =
    addLike (mkLikeReq u "POST" 1) liked.
Proof.
  destruct (protected_routes_require_token demo_verify (Some "forged")) as (Hforged & _).
  destruct (protected_routes_require_token demo_verify None) as (Hnone & _).
  destruct (protected_routes_require_token demo_verify (Some "johndoe")) as (_ & Hlike & _).
  repeat apply conj.
  - destruct Hforged as (Hpost & _).
    + right. right. exists "forged". split; reflexivity.
    + apply Hpost.
  - destruct Hnone as (_ & Hdel & _).
    + left. reflexivity.
    + apply Hdel.
  - apply Hlike. intro H.
    apply (f_equal db_nextLikeID) in H. vm_compute in H. discriminate H.
Defined.

Lemma getLikes_sums_witness :
  call_getLikes POST 9 liked_db = Rejected "Invalid Post ID" /\
  exists row,
    call_getLikes POST 1 liked_db = Resolved row /\
    ls_get L row = Some 1 /\ ls_get M row = Some 0 /\
    (exists none, call_getLikes POST 2 liked_db = Resolved none /\ ls_get L none = None).
Proof.
  destruct (getLikes_sums POST 9 liked_db) as [Hmissing _].
  destruct (getLikes_sums POST 1 liked_db) as [_ Hone].
  destruct (getLikes_sums POST 2 liked_db) as [_ Htwo].
  split.
  - apply Hmissing. intros [[_ H]|[E _]]; [simpl in H; intuition discriminate | discriminate E].
  - destruct Hone as (row & Hrow & Hcols); [left; split; [reflexivity | simpl; tauto]|].
    destruct Htwo as (none & Hnone & Hnull); [left; split; [reflexivity | simpl; tauto]|].
    exists row. repeat apply conj.
    + exact Hrow.
    + now rewrite (Hcols L).
    + now rewrite (Hcols M).
    + exists none. split; [exact Hnone|]. now rewrite (Hnull L).
Defined.
